(** * PageSpeedReporter (script.py): model and verification

    The program is a sequential client of the PageSpeed API followed by a
    Rich-based formatter.  The development has four layers:

    - [Py]: the fragment of the Python runtime the script relies on
      (JSON-shaped values, exceptions, subscripting, [in], [*], [/],
      [round], comparisons, truthiness, [str.title], [format(_, '.0f')]);
      floats are IEEE binary64 values in the sense of [SpecFloat];
    - [Rich] and [Requests]: the interface of the two third-party libraries
      as far as the script touches it;
    - the methods of [PageSpeedReporter], written in a state-and-exception
      monad over the reporter object;
    - the properties of the script. *)

From Stdlib Require Import ZArith List String Ascii Bool Lia Permutation.
From Stdlib Require Import SpecFloat DecimalString.
Import ListNotations.

Local Open Scope string_scope.
Local Open Scope Z_scope.

Set Warnings "-register-all".

(* ===================================================================== *)
(** * The Python runtime fragment *)
(* ===================================================================== *)

Module Py.

(** What [json.loads] produces: [None], [bool], [int], [float], [str],
    [list], and [dict] with string keys.  A [dict] is kept as its list of
    entries in insertion order; its keys are pairwise distinct in every
    value the runtime builds, and lookups take the first entry of a key. *)
Inductive value : Type :=
| VNone
| VBool (b : bool)
| VInt (n : Z)
| VFloat (f : spec_float)
| VStr (s : string)
| VList (items : list value)
| VDict (entries : list (string * value)).

(** Exception classes that occur.  [KeyboardInterrupt] and [SystemExit]
    derive from [BaseException] only; all the others derive from
    [Exception]. *)
Inductive exc_class : Type :=
| NameError | AttributeError | KeyError | TypeError | ValueError
| OverflowError | NotRenderableError
| ConnectionError | Timeout | HTTPError | JSONDecodeError
| KeyboardInterrupt | SystemExit.

Definition is_Exception (c : exc_class) : bool :=
  match c with
  | KeyboardInterrupt | SystemExit => false
  | _ => true
  end.

(** A raised exception: its class and [str(e)]. *)
Record exc : Type := Exc { exc_type : exc_class; exc_str : string }.

(** Evaluation of an expression: a value or a raised exception. *)
Definition res (A : Type) : Type := (exc + A)%type.

Definition ok {A : Type} (a : A) : res A := inr a.
Definition raise {A : Type} (c : exc_class) (msg : string) : res A :=
  inl (Exc c msg).
Definition bind {A B : Type} (c : res A) (k : A -> res B) : res B :=
  match c with
  | inl e => inl e
  | inr a => k a
  end.

Definition type_name (v : value) : string :=
  match v with
  | VNone => "NoneType"
  | VBool _ => "bool"
  | VInt _ => "int"
  | VFloat _ => "float"
  | VStr _ => "str"
  | VList _ => "list"
  | VDict _ => "dict"
  end.

(** ** Dictionaries *)

Fixpoint dict_lookup (k : string) (d : list (string * value)) : option value :=
  match d with
  | [] => None
  | (k', v) :: rest => if String.eqb k k' then Some v else dict_lookup k rest
  end.

(** [repr] of a key of the script.  Every key the script subscripts with
    is a literal of letters, digits and hyphens, for which [repr] only adds
    the quotes. *)
Definition repr_key (k : string) : string := "'" ++ k ++ "'".

(** [v[k]] for a string [k]. *)
Definition getitem (v : value) (k : string) : res value :=
  match v with
  | VDict d =>
      match dict_lookup k d with
      | Some x => ok x
      | None => raise KeyError (repr_key k)
      end
  | VList _ => raise TypeError "list indices must be integers or slices, not str"
  | VStr _ => raise TypeError "string indices must be integers, not 'str'"
  | _ => raise TypeError ("'" ++ type_name v ++ "' object is not subscriptable")
  end.

Definition is_substring (k s : string) : bool :=
  match String.index 0 k s with
  | Some _ => true
  | None => false
  end.

(** [k in v] for a string [k]: key membership in a dict, element
    membership in a list, substring test in a string. *)
Definition contains (k : string) (v : value) : res bool :=
  match v with
  | VDict d => ok (match dict_lookup k d with Some _ => true | None => false end)
  | VList l =>
      ok (existsb (fun x => match x with VStr s => String.eqb s k | _ => false end) l)
  | VStr s => ok (is_substring k s)
  | _ => raise TypeError ("argument of type '" ++ type_name v ++ "' is not iterable")
  end.

(** [v.get(k, default)]. *)
Definition dict_get (v : value) (k : string) (default : value) : res value :=
  match v with
  | VDict d =>
      ok (match dict_lookup k d with Some x => x | None => default end)
  | _ => raise AttributeError
           ("'" ++ type_name v ++ "' object has no attribute 'get'")
  end.

(** ** Numbers *)

Definition prec : Z := 53.
Definition emax : Z := 1024.

(** [float(n)] for an [int]: correctly rounded, [OverflowError] beyond the
    binary64 range. *)
Definition float_of_int (n : Z) : res spec_float :=
  match binary_normalize prec emax n 0 false with
  | S754_infinity _ => raise OverflowError "int too large to convert to float"
  | f => ok f
  end.

(** [a / b] on ints, for [b > 0]: the correctly rounded quotient. *)
Definition int_truediv (a b : Z) : res spec_float :=
  match a with
  | Z0 => ok (S754_zero false)
  | _ =>
      let '(mz, ez, lz) := SFdiv_core_binary prec emax (Z.abs a) 0 b 0 in
      match binary_round_aux prec emax (a <? 0) mz ez lz with
      | S754_infinity _ =>
          raise OverflowError "integer division result too large for a float"
      | f => ok f
      end
  end.

Definition Z_of_bool (b : bool) : Z := if b then 1 else 0.

Fixpoint repeat_string (n : nat) (s : string) : string :=
  match n with
  | O => ""
  | S n' => s ++ repeat_string n' s
  end.

Definition unsupported (op : string) (v : value) : string :=
  "unsupported operand type(s) for " ++ op ++ ": '" ++ type_name v ++ "' and 'int'".

(** [v * n] for an int literal [n]. *)
Definition mul (v : value) (n : Z) : res value :=
  match v with
  | VBool b => ok (VInt (Z_of_bool b * n))
  | VInt x => ok (VInt (x * n))
  | VFloat f => bind (float_of_int n) (fun g => ok (VFloat (SFmul prec emax f g)))
  | VStr s => ok (VStr (repeat_string (Z.to_nat n) s))
  | VList l => ok (VList (List.concat (List.repeat l (Z.to_nat n))))
  | _ => raise TypeError (unsupported "*" v)
  end.

(** [v / n] for a positive int literal [n]. *)
Definition truediv (v : value) (n : Z) : res value :=
  match v with
  | VBool b => bind (int_truediv (Z_of_bool b) n) (fun q => ok (VFloat q))
  | VInt x => bind (int_truediv x n) (fun q => ok (VFloat q))
  | VFloat f => bind (float_of_int n) (fun g => ok (VFloat (SFdiv prec emax f g)))
  | _ => raise TypeError (unsupported "/" v)
  end.

(** Nearest integer to [m / d] for [d > 0], ties to the even one. *)
Definition round_half_even_div (m d : Z) : Z :=
  let q := m / d in
  match (2 * (m mod d) ?= d) with
  | Lt => q
  | Gt => q + 1
  | Eq => if Z.even q then q else q + 1
  end.

(** The magnitude [m * 2^e] of a finite float rounded to an integer. *)
Definition round_magnitude (m : positive) (e : Z) : Z :=
  match e with
  | Zneg k => round_half_even_div (Zpos m) (2 ^ Zpos k)
  | _ => Zpos m * 2 ^ e
  end.

Definition float_round (f : spec_float) : res Z :=
  match f with
  | S754_zero _ => ok 0
  | S754_finite s m e =>
      ok (if s then - round_magnitude m e else round_magnitude m e)
  | S754_infinity _ =>
      raise OverflowError "cannot convert float infinity to integer"
  | S754_nan => raise ValueError "cannot convert float NaN to integer"
  end.

(** [round(v)] with a single argument: always an [int]. *)
Definition round (v : value) : res Z :=
  match v with
  | VBool b => ok (Z_of_bool b)
  | VInt n => ok n
  | VFloat f => float_round f
  | _ => raise TypeError
           ("type " ++ type_name v ++ " doesn't define __round__ method")
  end.

(** Comparison of [v] with an int literal [n] that binary64 represents
    exactly; [None] when a NaN is involved. *)
Definition compare_int (op : string) (v : value) (n : Z) : res (option comparison) :=
  match v with
  | VBool b => ok (Some (Z_of_bool b ?= n))
  | VInt x => ok (Some (x ?= n))
  | VFloat f => bind (float_of_int n) (fun g => ok (SFcompare f g))
  | _ => raise TypeError
           ("'" ++ op ++ "' not supported between instances of '"
              ++ type_name v ++ "' and 'int'")
  end.

(** [v >= n]. *)
Definition py_ge (v : value) (n : Z) : res bool :=
  bind (compare_int ">=" v n)
       (fun c => ok (match c with Some (Gt | Eq) => true | _ => false end)).

(** [v < n]. *)
Definition py_lt (v : value) (n : Z) : res bool :=
  bind (compare_int "<" v n)
       (fun c => ok (match c with Some Lt => true | _ => false end)).

(** Truth value of [v] in a condition. *)
Definition truthy (v : value) : bool :=
  match v with
  | VNone => false
  | VBool b => b
  | VInt n => negb (n =? 0)
  | VFloat (S754_zero _) => false
  | VFloat _ => true
  | VStr s => negb (String.eqb s "")
  | VList l => match l with [] => false | _ => true end
  | VDict d => match d with [] => false | _ => true end
  end.

(** [a or b]. *)
Definition py_or (a b : value) : value := if truthy a then a else b.

(** ** Strings *)

Definition str_of_Z (n : Z) : string := NilZero.string_of_int (Z.to_int n).

Definition is_upper (c : ascii) : bool :=
  ((65 <=? nat_of_ascii c) && (nat_of_ascii c <=? 90))%nat.
Definition is_lower (c : ascii) : bool :=
  ((97 <=? nat_of_ascii c) && (nat_of_ascii c <=? 122))%nat.
Definition to_upper (c : ascii) : ascii :=
  if is_lower c then ascii_of_nat (nat_of_ascii c - 32) else c.
Definition to_lower (c : ascii) : ascii :=
  if is_upper c then ascii_of_nat (nat_of_ascii c + 32) else c.

Fixpoint title_from (prev_cased : bool) (s : string) : string :=
  match s with
  | EmptyString => EmptyString
  | String c rest =>
      if is_upper c || is_lower c
      then String (if prev_cased then to_lower c else to_upper c)
                  (title_from true rest)
      else String c (title_from false rest)
  end.

(** [s.title()] on ASCII text (the strategies are 'desktop' and 'mobile'). *)
Definition title (s : string) : string := title_from false s.

(** [format(v, '.0f')]: no fractional digits, ties to even, the sign of
    the float kept. *)
Definition format_float_0f (f : spec_float) : string :=
  match f with
  | S754_zero s => if s then "-0" else "0"
  | S754_finite s m e =>
      (if s then "-" else "") ++ str_of_Z (round_magnitude m e)
  | S754_infinity s => if s then "-inf" else "inf"
  | S754_nan => "nan"
  end.

Definition format_0f (v : value) : res string :=
  match v with
  | VBool b => bind (float_of_int (Z_of_bool b)) (fun f => ok (format_float_0f f))
  | VInt n => bind (float_of_int n) (fun f => ok (format_float_0f f))
  | VFloat f => ok (format_float_0f f)
  | VStr _ => raise ValueError "Unknown format code 'f' for object of type 'str'"
  | _ => raise TypeError
           ("unsupported format string passed to " ++ type_name v ++ ".__format__")
  end.

Definition newline : string := String "010"%char EmptyString.

End Py.

Export Py.

Declare Scope py_scope.
Notation "x <- c ;; k" := (Py.bind c (fun x => k))
  (at level 61, c at next level, right associativity) : py_scope.
Local Open Scope py_scope.

(* ===================================================================== *)
(** * Third-party interfaces *)
(* ===================================================================== *)

(** ** Rich: tables, panels and the console *)

Module Rich.

(** A table is its column headers and its rows of cell text; styles,
    widths and box shapes do not enter the properties below. *)
Record Table : Type := mkTable {
  show_header : bool;
  columns : list string;
  rows : list (list string)
}.

(** What [Console.print] is handed.  The console is the sequence of these
    objects; how Rich lays them out and interprets the markup in their
    text is not part of the model. *)
Inductive renderable : Type :=
| Text (s : string)
| Panel (content title : string)
| TableR (t : Table).

Definition add_column (name : string) (t : Table) : Table :=
  mkTable (show_header t) (columns t ++ [name]) (rows t).

(** A cell is a string; [None] stands for an empty cell; anything else is
    refused by [Table.add_row]. *)
Definition cell (v : value) : res string :=
  match v with
  | VNone => ok ""
  | VStr s => ok s
  | _ => raise NotRenderableError
           ("unable to render " ++ type_name v
              ++ "; a string or other renderable object is required")
  end.

Fixpoint cells (vs : list value) : res (list string) :=
  match vs with
  | [] => ok []
  | v :: rest => c <- cell v ;; cs <- cells rest ;; ok (c :: cs)
  end.

Definition add_row (vs : list value) (t : Table) : res Table :=
  cs <- cells vs ;;
  ok (mkTable (show_header t) (columns t) (rows t ++ [cs])).

End Rich.

Export Rich.

(** ** Requests: the HTTP client *)

Module Requests.

(** A response as the script uses it: the outcome of [raise_for_status()]
    and the outcome of [json()]. *)
Record Response : Type := mkResponse {
  raise_for_status : res unit;
  json : res value
}.

(** The module object: [get(url, params=...)] returns a response or raises
    (connection failure, timeout, ...). *)
Record Client : Type := mkClient {
  get : string -> list (string * value) -> res Response
}.

(** A response with a given status line and body.  [raise_for_status]
    raises [HTTPError] for the statuses 400 to 599 and for no other. *)
Definition http_response (status : Z) (reason url : string)
    (body : res value) : Response :=
  mkResponse
    (if (400 <=? status) && (status <? 500)
     then raise HTTPError
            (str_of_Z status ++ " Client Error: " ++ reason ++ " for url: " ++ url)
     else if (500 <=? status) && (status <? 600)
     then raise HTTPError
            (str_of_Z status ++ " Server Error: " ++ reason ++ " for url: " ++ url)
     else ok tt)
    body.

End Requests.

(* ===================================================================== *)
(** * The module's global names *)
(* ===================================================================== *)

(** An object bound to a global name: something the import statements
    bound, or an HTTP client. *)
Inductive global_object : Type :=
| Imported (qualified_name : string)
| HttpClient (c : Requests.Client).

Definition globals : Type := list (string * global_object).

(** Lines 1-9: the names the module binds before [__main__] runs.  None of
    them is [requests], and [requests] is not a builtin either. *)
Definition script_globals : globals :=
  [ ("ThreadPoolExecutor", Imported "concurrent.futures.ThreadPoolExecutor");
    ("Console", Imported "rich.console.Console");
    ("Panel", Imported "rich.panel.Panel");
    ("box", Imported "rich.box");
    ("Table", Imported "rich.table.Table");
    ("Progress", Imported "rich.progress.Progress");
    ("os", Imported "os");
    ("PageSpeedReporter", Imported "__main__.PageSpeedReporter") ].

Fixpoint lookup_global (name : string) (g : globals) : option global_object :=
  match g with
  | [] => None
  | (n, o) :: rest => if String.eqb name n then Some o else lookup_global name rest
  end.

(** Evaluating a global name. *)
Definition load_global (g : globals) (name : string) : res global_object :=
  match lookup_global name g with
  | Some o => ok o
  | None => raise NameError ("name '" ++ name ++ "' is not defined")
  end.

(** [requests.get]: load the name, then its attribute [get]. *)
Definition requests_get (g : globals)
    : res (string -> list (string * value) -> res Requests.Response) :=
  o <- load_global g "requests" ;;
  match o with
  | HttpClient c => ok (Requests.get c)
  | Imported q => raise AttributeError ("'" ++ q ++ "' has no attribute 'get'")
  end.

(** The module with [requests] bound to a client, as a test that
    patches the name sets it up. *)
Definition with_requests (c : Requests.Client) : globals :=
  (script_globals ++ [("requests", HttpClient c)])%list.

(* ===================================================================== *)
(** * The data the analyzer produces *)
(* ===================================================================== *)

(** The dict built by [_get_metric] (lines 51-55). *)
Record MetricValue : Type := mkMetric {
  mv_score : value;
  mv_value : value;
  mv_displayValue : value
}.

(** The dict appended by [_get_opportunities] (lines 70-76). *)
Record Opportunity : Type := mkOpportunity {
  opp_title : value;
  opp_description : value;
  opp_score : value;
  opp_numericValue : value;
  opp_displayValue : value
}.

(** The dict built by [analyze_url] (lines 30-43).  ['metrics'] is a dict
    literal: its entries are kept in the order it lists them. *)
Record AnalysisResult : Type := mkResult {
  r_url : string;
  r_strategy : string;
  r_score : Z;
  r_metrics : list (string * MetricValue);
  r_opportunities : list Opportunity
}.

(** What [analyze_url] returns is present when it is not [None]. *)
Definition present (result : option AnalysisResult) : bool :=
  match result with
  | Some _ => true
  | None => false
  end.

(* ===================================================================== *)
(** * The reporter object and its monad *)
(* ===================================================================== *)

(** Method entries, recorded for the properties that speak of a method
    being invoked. *)
Inductive call : Type :=
| CallAnalyzeUrl (url strategy : string)
| CallDisplayReport (url : string) (desktop mobile : AnalysisResult).

(** The state the methods act on: the two attributes of [self]
    ([api_key], and [console] as the sequence of objects printed so far),
    the counter of the progress task of [analyze_urls], and the record of
    method entries. *)
Record PageSpeedReporter : Type := mkReporter {
  api_key : value;
  console : list renderable;
  completed : Z;
  calls : list call
}.

(** A method body: it ends with a value or with an exception leaving it,
    and in both cases with a new state. *)
Definition M (A : Type) : Type :=
  PageSpeedReporter -> res A * PageSpeedReporter.

Definition ret {A : Type} (a : A) : M A := fun self => (ok a, self).

Definition bindM {A B : Type} (c : M A) (k : A -> M B) : M B :=
  fun self =>
    match c self with
    | (inl e, self') => (inl e, self')
    | (inr a, self') => k a self'
    end.

Definition lift {A : Type} (c : res A) : M A := fun self => (c, self).

Notation "x <~ c ;; k" := (bindM c (fun x => k))
  (at level 61, c at next level, right associativity) : py_scope.
Notation "c ;~ k" := (bindM c (fun _ => k))
  (at level 61, right associativity) : py_scope.

(** The state once [x] is printed, once a method is entered, and once the
    progress task is advanced. *)
Definition printed (x : renderable) (self : PageSpeedReporter)
    : PageSpeedReporter :=
  mkReporter (api_key self) (console self ++ [x]) (completed self) (calls self).

Definition entered (c : call) (self : PageSpeedReporter) : PageSpeedReporter :=
  mkReporter (api_key self) (console self) (completed self) (calls self ++ [c]).

Definition advanced (n : Z) (self : PageSpeedReporter) : PageSpeedReporter :=
  mkReporter (api_key self) (console self) (completed self + n) (calls self).

(** [self.console.print(x)]. *)
Definition console_print (x : renderable) : M unit :=
  fun self => (ok tt, printed x self).

Definition enter (c : call) : M unit :=
  fun self => (ok tt, entered c self).

(** [progress.add_task(..., total=...)]: a fresh task, nothing completed. *)
Definition progress_add_task : M unit :=
  fun self => (ok tt, mkReporter (api_key self) (console self) 0 (calls self)).

(** [progress.update(task, advance=n)]. *)
Definition progress_update (n : Z) : M unit :=
  fun self => (ok tt, advanced n self).

(* ===================================================================== *)
(** * The methods of PageSpeedReporter *)
(* ===================================================================== *)

(** [os.getenv(name)]: the variable's value, or [None]. *)
Fixpoint getenv (environ : list (string * string)) (name : string) : value :=
  match environ with
  | [] => VNone
  | (n, v) :: rest => if String.eqb name n then VStr v else getenv rest name
  end.

(** Lines 10-12.  The parameter [api_key] is not read by the body. *)
Definition __init__ (api_key : value) (environ : list (string * string))
    : PageSpeedReporter :=
  mkReporter (py_or (VStr "API_KEY_HERE") (getenv environ "PAGESPEED_API_KEY"))
             [] 0 [].

(** Lines 50-55. *)
Definition _get_metric (audit : value) : res MetricValue :=
  s <- getitem audit "score" ;;
  v <- (present <- contains "numericValue" audit ;;
        if present : bool
        then (n <- getitem audit "numericValue" ;; truediv n 1000)
        else ok (VInt 0)) ;;
  d <- getitem audit "displayValue" ;;
  ok (mkMetric s v d).

Definition opportunity_keys : list string :=
  [ "render-blocking-resources";
    "unused-css-rules";
    "unused-javascript";
    "modern-image-formats";
    "offscreen-images" ].

(** The dict literal of lines 70-76, its entries evaluated first to last. *)
Definition opportunity_of (audit : value) : res Opportunity :=
  t <- getitem audit "title" ;;
  d <- getitem audit "description" ;;
  s <- getitem audit "score" ;;
  n <- dict_get audit "numericValue" (VInt 0) ;;
  dv <- dict_get audit "displayValue" (VStr "") ;;
  ok (mkOpportunity t d s n dv).

(** The loop of lines 67-76, from the list built so far. *)
Fixpoint opportunities_loop (audits : value) (keys : list string)
    (opportunities : list Opportunity) : res (list Opportunity) :=
  match keys with
  | [] => ok opportunities
  | key :: rest =>
      present <- contains key audits ;;
      if present : bool
      then
        audit <- getitem audits key ;;
        opp <- opportunity_of audit ;;
        opportunities_loop audits rest (opportunities ++ [opp])%list
      else opportunities_loop audits rest opportunities
  end.

(** Lines 57-77. *)
Definition _get_opportunities (audits : value) : res (list Opportunity) :=
  opportunities_loop audits opportunity_keys [].

(** Lines 79-84. *)
Definition get_score_color (score : value) : res string :=
  good <- py_ge score 90 ;;
  if good : bool then ok "green"
  else
    fair <- py_ge score 50 ;;
    if fair : bool then ok "yellow" else ok "red".

(** The names of the metrics with the audit each is read from, in the
    order the dict literal of lines 34-41 lists them. *)
Definition metric_table : list (string * string) :=
  [ ("First Contentful Paint", "first-contentful-paint");
    ("Speed Index", "speed-index");
    ("Largest Contentful Paint", "largest-contentful-paint");
    ("Time to Interactive", "interactive");
    ("Total Blocking Time", "total-blocking-time");
    ("Cumulative Layout Shift", "cumulative-layout-shift") ].

(** The entries of the dict literal are evaluated first to last. *)
Fixpoint metrics_literal (audits : value) (entries : list (string * string))
    : res (list (string * MetricValue)) :=
  match entries with
  | [] => ok []
  | (name, id) :: rest =>
      audit <- getitem audits id ;;
      m <- _get_metric audit ;;
      ms <- metrics_literal audits rest ;;
      ok ((name, m) :: ms)
  end.

Definition api_url : string :=
  "https://www.googleapis.com/pagespeedonline/v5/runPagespeed".

(** Lines 16-20: the query parameters. *)
Definition request_params (key : value) (url strategy : string)
    : list (string * value) :=
  [("url", VStr url); ("key", key); ("strategy", VStr strategy)].

(** Lines 23-25: the request and the decoding of its answer. *)
Definition fetch (g : globals) (key : value) (url strategy : string)
    : res value :=
  let params := request_params key url strategy in
  get <- requests_get g ;;
  response <- get api_url params ;;
  _ <- Requests.raise_for_status response ;;
  Requests.json response.

(** Lines 27-44: the result built from the decoded answer. *)
Definition build_result (url strategy : string) (data : value)
    : res AnalysisResult :=
  lr <- getitem data "lighthouseResult" ;;
  audits <- getitem lr "audits" ;;
  lr' <- getitem data "lighthouseResult" ;;
  categories <- getitem lr' "categories" ;;
  performance <- getitem categories "performance" ;;
  s <- getitem performance "score" ;;
  s100 <- mul s 100 ;;
  score <- round s100 ;;
  metrics <- metrics_literal audits metric_table ;;
  opportunities <- _get_opportunities audits ;;
  ok (mkResult url strategy score metrics opportunities).

(** The [try] block of lines 22-44. *)
Definition try_block (g : globals) (key : value) (url strategy : string)
    : res AnalysisResult :=
  data <- fetch g key url strategy ;;
  build_result url strategy data.

Definition error_line (url strategy : string) (e : exc) : string :=
  "[red]Error analyzing " ++ url ++ " (" ++ strategy ++ "): "
    ++ exc_str e ++ "[/red]".

(** Lines 14-48.  [except Exception] handles the classes deriving from
    [Exception]; any other exception leaves the method. *)
Definition analyze_url (g : globals) (url strategy : string)
    : M (option AnalysisResult) :=
  enter (CallAnalyzeUrl url strategy) ;~
  fun self =>
    match try_block g (api_key self) url strategy with
    | inr result => (ok (Some result), self)
    | inl e =>
        if is_Exception (exc_type e)
        then (console_print (Text (error_line url strategy e)) ;~ ret None) self
        else (inl e, self)
    end.

(* ===================================================================== *)
(** * The report *)
(* ===================================================================== *)

Section Report.

(** [repr] of the runtime, which the script reaches through the f-strings
    of lines 108-111 when a field is not a string. *)
Variable py_repr : value -> string.

(** [str(v)], what an f-string field [{v}] expands to. *)
Definition str (v : value) : string :=
  match v with
  | VStr s => s
  | _ => py_repr v
  end.

Definition markup (color text : string) : string :=
  "[" ++ color ++ "]" ++ text ++ "[/" ++ color ++ "]".

(** The body of the loop of lines 92-98. *)
Fixpoint metrics_rows (items : list (string * MetricValue)) (table : Table)
    : res Table :=
  match items with
  | [] => ok table
  | (metric_name, metric_data) :: rest =>
      s100 <- mul (mv_score metric_data) 100 ;;
      score_color <- get_score_color s100 ;;
      shown <- mul (mv_score metric_data) 100 ;;
      digits <- format_0f shown ;;
      table' <- add_row [ VStr metric_name;
                          mv_displayValue metric_data;
                          VStr (markup score_color digits) ] table ;;
      metrics_rows rest table'
  end.

(** Lines 86-99. *)
Definition display_metrics (metrics : list (string * MetricValue))
    : res Table :=
  metrics_rows metrics
    (add_column "Score" (add_column "Value" (add_column "Metric"
       (mkTable true [] [])))).

Definition savings_text (display_value : value) : string :=
  if truthy display_value
  then " • Potential savings: " ++ str display_value
  else "".

(** The text of the single cell of lines 110-111. *)
Definition opportunity_cell (score_color : string) (opp : Opportunity)
    : string :=
  markup score_color ("● " ++ str (opp_title opp))
    ++ savings_text (opp_displayValue opp)
    ++ newline ++ "  " ++ str (opp_description opp).

(** The body of the loop of lines 105-112. *)
Fixpoint opportunities_rows (opps : list Opportunity) (table : Table)
    : res Table :=
  match opps with
  | [] => ok table
  | opp :: rest =>
      below <- py_lt (opp_score opp) 1 ;;
      if below : bool
      then
        s100 <- mul (opp_score opp) 100 ;;
        score_color <- get_score_color s100 ;;
        table' <- add_row [VStr (opportunity_cell score_color opp)] table ;;
        opportunities_rows rest table'
      else opportunities_rows rest table
  end.

(** Lines 101-113. *)
Definition display_opportunities (opportunities : list Opportunity)
    : res Table :=
  opportunities_rows opportunities
    (add_column "Content" (mkTable false [] [])).

Definition heading (text : string) : renderable :=
  Text (newline ++ "[bold]" ++ text ++ "[/bold]").

(** The body of the loop of lines 132-147, for one result. *)
Definition report_section (result : AnalysisResult) : M unit :=
  let strategy := title (r_strategy result) in
  let score := r_score result in
  score_color <~ lift (get_score_color (VInt score)) ;;
  console_print (heading (strategy ++ " Results")) ;~
  console_print
    (Panel (markup score_color ("Performance Score: " ++ str_of_Z score))
           (strategy ++ " Score")) ;~
  console_print (heading (strategy ++ " Lab Data")) ;~
  metrics_table <~ lift (display_metrics (r_metrics result)) ;;
  console_print (TableR metrics_table) ;~
  console_print (heading (strategy ++ " Opportunities")) ;~
  opportunities_table <~ lift (display_opportunities (r_opportunities result)) ;;
  console_print (TableR opportunities_table).

(** Lines 129-147. *)
Definition display_report (url : string)
    (desktop_result mobile_result : AnalysisResult) : M unit :=
  enter (CallDisplayReport url desktop_result mobile_result) ;~
  console_print (heading ("Performance Report for " ++ url)) ;~
  report_section desktop_result ;~
  report_section mobile_result.

(** The body of the loop of lines 119-127, for one URL.  In the test of
    line 126 [None] is false and a result, a dict of five entries, is
    true. *)
Definition analyze_one (g : globals) (url : string) : M unit :=
  desktop_result <~ analyze_url g url "desktop" ;;
  progress_update 1 ;~
  mobile_result <~ analyze_url g url "mobile" ;;
  progress_update 1 ;~
  match desktop_result, mobile_result with
  | Some d, Some m => display_report url d m
  | _, _ => ret tt
  end.

Fixpoint analyze_loop (g : globals) (urls : list string) : M unit :=
  match urls with
  | [] => ret tt
  | url :: rest => analyze_one g url ;~ analyze_loop g rest
  end.

(** Lines 115-127. *)
Definition analyze_urls (g : globals) (urls : list string) : M unit :=
  progress_add_task ;~ analyze_loop g urls.

(** Lines 149-155. *)
Definition main (g : globals) (environ : list (string * string))
    : res unit * PageSpeedReporter :=
  analyze_urls g ["https://example.com"] (__init__ VNone environ).

End Report.

(* ===================================================================== *)
(** * Vocabulary of the properties *)
(* ===================================================================== *)

(** [catchable c]: whatever [c] raises is handled by [except Exception]. *)
Definition catchable {A : Type} (c : res A) : Prop :=
  forall e, c = inl e -> is_Exception (exc_type e) = true.

(** The display calls among recorded calls. *)
Fixpoint report_calls (l : list call)
    : list (string * AnalysisResult * AnalysisResult) :=
  match l with
  | [] => []
  | CallDisplayReport url d m :: rest => (url, d, m) :: report_calls rest
  | CallAnalyzeUrl _ _ :: rest => report_calls rest
  end.

(** The paths of the answer the analyzer reads. *)
Definition response_audits (data : value) : res value :=
  lr <- getitem data "lighthouseResult" ;;
  getitem lr "audits".

Definition performance_score (data : value) : res value :=
  lr <- getitem data "lighthouseResult" ;;
  categories <- getitem lr "categories" ;;
  performance <- getitem categories "performance" ;;
  getitem performance "score".

(** The ways an analysis fails: the name [requests] cannot be used, the
    request raises (connection, timeout), the status is refused, the body
    does not decode, or the decoded answer lacks what lines 27-42 read.
    What the HTTP client raises is taken to derive from [Exception], as
    every exception of [requests] and [json] does. *)
Inductive failure (g : globals) (key : value) (url strategy : string)
    : exc -> Prop :=
| failure_name e :
    requests_get g = inl e ->
    failure g key url strategy e
| failure_transport get e :
    requests_get g = ok get ->
    get api_url (request_params key url strategy) = inl e ->
    is_Exception (exc_type e) = true ->
    failure g key url strategy e
| failure_status get response e :
    requests_get g = ok get ->
    get api_url (request_params key url strategy) = ok response ->
    Requests.raise_for_status response = inl e ->
    is_Exception (exc_type e) = true ->
    failure g key url strategy e
| failure_decoding get response e :
    requests_get g = ok get ->
    get api_url (request_params key url strategy) = ok response ->
    Requests.raise_for_status response = ok tt ->
    Requests.json response = inl e ->
    is_Exception (exc_type e) = true ->
    failure g key url strategy e
| failure_lookup get response data e :
    requests_get g = ok get ->
    get api_url (request_params key url strategy) = ok response ->
    Requests.raise_for_status response = ok tt ->
    Requests.json response = ok data ->
    build_result url strategy data = inl e ->
    failure g key url strategy e.

(** [keeps_calls c]: [c] enters no method. *)
Definition keeps_calls {A : Type} (c : M A) : Prop :=
  forall self, calls (snd (c self)) = calls self.

(** The binary64 values of the int literals the script computes with. *)
Definition float_1 : spec_float := S754_finite false 4503599627370496 (-52).
Definition float_100 : spec_float := S754_finite false 7036874417766400 (-46).

(** A value is a number. *)
Definition numeric (v : value) : Prop :=
  match v with
  | VBool _ | VInt _ | VFloat _ => True
  | _ => False
  end.

(** A row of the opportunities table shows a given opportunity: a single
    cell, colored by the tier of the score times 100. *)
Definition rendered_row (py_repr : value -> string) (o : Opportunity)
    (row : list string) : Prop :=
  exists s100 color,
    mul (opp_score o) 100 = ok s100
    /\ get_score_color s100 = ok color
    /\ row = [opportunity_cell py_repr color o].

(** An opportunity's score is a number. *)
Definition numeric_score (o : Opportunity) : Prop := numeric (opp_score o).

(** An opportunity's score is strictly below 1. *)
Definition below_one (o : Opportunity) : bool :=
  match opp_score o with
  | VBool b => negb b
  | VInt n => n <? 1
  | VFloat f => SFltb f float_1
  | _ => false
  end.

(** Each entry of the literal is the metric of the audit it names. *)
Definition metric_entry_of (audits : value) (entry : string * string)
    (named : string * MetricValue) : Prop :=
  fst named = fst entry
  /\ exists audit, getitem audits (snd entry) = ok audit
                   /\ _get_metric audit = ok (snd named).

(** Whether a dict has a key. *)
Definition has_key (d : list (string * value)) (k : string) : bool :=
  match dict_lookup k d with
  | Some _ => true
  | None => false
  end.

(** An opportunity is the one read from the audit a key names. *)
Definition opportunity_entry_of (d : list (string * value)) (key : string)
    (o : Opportunity) : Prop :=
  exists audit, dict_lookup key d = Some audit /\ opportunity_of audit = ok o.

(** What [shr_1] keeps true, [n] shifts after the start from [M]: the
    mantissa is not negative, and shifted back it is at most [M], strictly
    below when a bit was lost. *)
Definition shifted (M : Z) (n : Z) (mrs : shr_record) : Prop :=
  0 <= shr_m mrs
  /\ shr_m mrs * 2 ^ n + (if shr_r mrs || shr_s mrs then 1 else 0) <= M.

(* ===================================================================== *)
(** * Sample answers *)
(* ===================================================================== *)

Module Sample.

(** The binary64 values nearest to 0.95, 0.575 and 0.4. *)
Definition f0_95 : spec_float := S754_finite false 8556839292003942 (-53).
Definition f0_575 : spec_float := S754_finite false 5179139571476070 (-53).
Definition f0_4 : spec_float := S754_finite false 7205759403792794 (-54).
(** The binary64 value nearest to 1.2. *)
Definition f1_2 : spec_float := S754_finite false 5404319552844595 (-52).

Definition metric_audit (score : value) (ms : Z) (shown : string) : value :=
  VDict [("score", score); ("numericValue", VInt ms); ("displayValue", VStr shown)].

(** Two opportunity audits come first and in the reverse of the allow-list
    order, one audit is outside the allow-list, and the layout-shift audit
    has no [numericValue]. *)
Definition audits : list (string * value) :=
  [ ("unused-css-rules",
     VDict [("title", VStr "Reduce unused CSS");
            ("description", VStr "Remove dead rules");
            ("score", VFloat f0_4);
            ("displayValue", VStr "Save 150 KB")]);
    ("render-blocking-resources",
     VDict [("title", VStr "Eliminate render-blocking resources");
            ("description", VStr "Defer scripts");
            ("score", VInt 1)]);
    ("uses-http2",
     VDict [("title", VStr "Use HTTP/2");
            ("description", VStr "Not on the list");
            ("score", VInt 0)]);
    ("cumulative-layout-shift",
     VDict [("score", VInt 1); ("displayValue", VStr "0")]);
    ("total-blocking-time", metric_audit (VFloat f0_95) 10 "10 ms");
    ("interactive", metric_audit (VFloat f0_95) 1800 "1.8 s");
    ("largest-contentful-paint", metric_audit (VFloat f0_95) 1700 "1.7 s");
    ("speed-index", metric_audit (VFloat f0_95) 1500 "1.5 s");
    ("first-contentful-paint", metric_audit (VFloat f0_95) 1200 "1.2 s") ].

Definition answer_with (score : value) (audit_entries : list (string * value))
    : value :=
  VDict [("lighthouseResult",
          VDict [("audits", VDict audit_entries);
                 ("categories",
                  VDict [("performance", VDict [("score", score)])])])].

Definition answer : value := answer_with (VFloat f0_95) audits.

(** The same answer without the [speed-index] audit. *)
Definition answer_missing_speed_index : value :=
  answer_with (VFloat f0_95)
    (filter (fun kv => negb (String.eqb (fst kv) "speed-index")) audits).

(** The same answer with the [speed-index] audit lacking ['score']. *)
Definition answer_scoreless_speed_index : value :=
  answer_with (VFloat f0_95)
    (("speed-index", VDict [("numericValue", VInt 1500);
                            ("displayValue", VStr "1.5 s")])
     :: filter (fun kv => negb (String.eqb (fst kv) "speed-index")) audits).

Definition serving (status : Z) (reason : string) (body : res value)
    : Requests.Client :=
  Requests.mkClient
    (fun url _ => ok (Requests.http_response status reason url body)).

Definition client_ok : Requests.Client := serving 200 "OK" (ok answer).

Definition client_500 : Requests.Client :=
  serving 500 "Internal Server Error" (ok answer).

Definition client_timeout : Requests.Client :=
  Requests.mkClient (fun _ _ => raise Timeout "Read timed out.").

Definition client_missing_speed_index : Requests.Client :=
  serving 200 "OK" (ok answer_missing_speed_index).

Definition client_scoreless_speed_index : Requests.Client :=
  serving 200 "OK" (ok answer_scoreless_speed_index).

(** A client that answers the desktop request and times out on any
    other. *)
Definition client_desktop_only : Requests.Client :=
  Requests.mkClient
    (fun url params =>
       match dict_lookup "strategy" params with
       | Some (VStr "desktop") =>
           ok (Requests.http_response 200 "OK" url (ok answer))
       | _ => raise Timeout "Read timed out."
       end).

(** The sample answer with a performance score of 0.575, whose product
    with 100 is the binary64 value just below 57.5. *)
Definition client_0_575 : Requests.Client :=
  serving 200 "OK" (ok (answer_with (VFloat f0_575) audits)).

(** A stand-in for [repr]; the sample fields are all strings. *)
Definition repr (v : value) : string := "<" ++ type_name v ++ ">".

Definition reporter : PageSpeedReporter := __init__ VNone [].

End Sample.

(* ===================================================================== *)
(** * Vocabulary of the further properties *)
(* ===================================================================== *)

(** The binary64 values of 90 and 50. *)
Definition float_90 : spec_float := S754_finite false 6333186975989760 (-46).
Definition float_50 : spec_float := S754_finite false 7036874417766400 (-47).

(** The [analyze_url] calls among recorded calls. *)
Fixpoint analyze_calls (l : list call) : list (string * string) :=
  match l with
  | [] => []
  | CallAnalyzeUrl url strategy :: rest => (url, strategy) :: analyze_calls rest
  | CallDisplayReport _ _ _ :: rest => analyze_calls rest
  end.

(** A value [Table.add_row] takes as a cell. *)
Definition cell_value (v : value) : Prop :=
  match v with
  | VNone | VStr _ => True
  | _ => False
  end.

(** A row of the metrics table shows a given entry of the metrics: the
    name, the display value, and the score times 100 without decimals in
    the color of its tier. *)
Definition metric_row (named : string * MetricValue) (row : list string)
    : Prop :=
  exists s100 color digits shown,
    mul (mv_score (snd named)) 100 = ok s100
    /\ get_score_color s100 = ok color
    /\ format_0f s100 = ok digits
    /\ cell (mv_displayValue (snd named)) = ok shown
    /\ row = [fst named; shown; markup color digits].

(** The color of an integer score. *)
Definition tier_color (score : Z) : string :=
  if 90 <=? score then "green" else if 50 <=? score then "yellow" else "red".

(** What the part of the report for one result starts with: the heading,
    the score panel, and the heading of the metrics. *)
Definition section_head (result : AnalysisResult) : list renderable :=
  [ heading (title (r_strategy result) ++ " Results");
    Panel (markup (tier_color (r_score result))
             ("Performance Score: " ++ str_of_Z (r_score result)))
          (title (r_strategy result) ++ " Score");
    heading (title (r_strategy result) ++ " Lab Data") ].

(** What the part of the report for one result consists of. *)
Definition section_of (py_repr : value -> string) (result : AnalysisResult)
    (out : list renderable) : Prop :=
  exists metrics_table opportunities_table,
    display_metrics (r_metrics result) = ok metrics_table
    /\ display_opportunities py_repr (r_opportunities result)
       = ok opportunities_table
    /\ out = (section_head result
                ++ [ TableR metrics_table;
                     heading (title (r_strategy result) ++ " Opportunities");
                     TableR opportunities_table ])%list.

(** [frame c]: [c] leaves the credential and the progress counter as they
    are and only adds to the console. *)
Definition frame {A : Type} (c : M A) : Prop :=
  forall self,
    api_key (snd (c self)) = api_key self
    /\ completed (snd (c self)) = completed self
    /\ exists out, console (snd (c self)) = (console self ++ out)%list.

(** The state once a sequence of objects is printed. *)
Definition printed_all (out : list renderable) (self : PageSpeedReporter)
    : PageSpeedReporter :=
  mkReporter (api_key self) (console self ++ out)%list (completed self)
             (calls self).

Module Edge.

(** A client whose [get] is interrupted from the keyboard. *)
Definition client_interrupted : Requests.Client :=
  Requests.mkClient (fun _ _ => raise KeyboardInterrupt "").

(** The sample answer with a [null] score in the [speed-index] audit. *)
Definition answer_null_metric_score : value :=
  Sample.answer_with (VFloat Sample.f0_95)
    (("speed-index", VDict [("score", VNone);
                            ("numericValue", VInt 1500);
                            ("displayValue", VStr "1.5 s")])
     :: filter (fun kv => negb (String.eqb (fst kv) "speed-index"))
          Sample.audits).

Definition client_null_metric_score : Requests.Client :=
  Sample.serving 200 "OK" (ok answer_null_metric_score).

(** The sample answer with an allow-listed audit that has no ['title']. *)
Definition answer_untitled_opportunity : value :=
  Sample.answer_with (VFloat Sample.f0_95)
    (("offscreen-images", VDict [("description", VStr "Defer images");
                                 ("score", VInt 0)])
     :: Sample.audits).

Definition client_untitled_opportunity : Requests.Client :=
  Sample.serving 200 "OK" (ok answer_untitled_opportunity).

(** An answer that is a dict without ['lighthouseResult']. *)
Definition answer_error_body : value :=
  VDict [("error", VDict [("code", VInt 429)])].

Definition client_error_body : Requests.Client :=
  Sample.serving 200 "OK" (ok answer_error_body).

(** A client that answers the request to the API and no other. *)
Definition client_api_only : Requests.Client :=
  Requests.mkClient
    (fun url params =>
       if String.eqb url api_url
       then ok (Requests.http_response 200 "OK" url (ok Sample.answer))
       else raise ConnectionError "Name or service not known").

(** The binary64 value nearest to 0.897, and its product with 100, the
    binary64 value nearest to 89.7. *)
Definition f0_897 : spec_float := S754_finite false 8079457731502670 (-53).
Definition f89_7 : spec_float := S754_finite false 6312076352736461 (-46).

End Edge.

(* ===================================================================== *)
(** * Facts about the runtime fragment *)
(* ===================================================================== *)

(** ** Exceptions raised by the runtime derive from [Exception] *)

Lemma catchable_ok {A : Type} (a : A) : catchable (ok a).
Proof. intros e H. discriminate H. Qed.

Lemma catchable_raise {A : Type} (c : exc_class) (msg : string) :
  is_Exception c = true -> catchable (@raise A c msg).
Proof. intros Hc e H. inversion H. exact Hc. Qed.

Lemma catchable_bind {A B : Type} (c : res A) (k : A -> res B) :
  catchable c -> (forall a, catchable (k a)) -> catchable (bind c k).
Proof.
  intros Hc Hk e H. destruct c as [e' | a]; simpl in H.
  - apply Hc. inversion H. reflexivity.
  - apply (Hk a). exact H.
Qed.

Lemma catchable_if {A : Type} (b : bool) (c1 c2 : res A) :
  catchable c1 -> catchable c2 -> catchable (if b then c1 else c2).
Proof. destruct b; auto. Qed.

Create HintDb catchable.
#[local] Hint Resolve catchable_ok catchable_bind catchable_if : catchable.
#[local] Hint Extern 1 (catchable (raise _ _)) =>
  (apply catchable_raise; reflexivity) : catchable.

Lemma catchable_getitem v k : catchable (getitem v k).
Proof.
  destruct v; simpl; auto with catchable.
  destruct (dict_lookup k entries); auto with catchable.
Qed.

Lemma catchable_contains k v : catchable (contains k v).
Proof. destruct v; simpl; auto with catchable. Qed.

Lemma catchable_dict_get v k d : catchable (dict_get v k d).
Proof. destruct v; simpl; auto with catchable. Qed.

Lemma catchable_float_of_int n : catchable (float_of_int n).
Proof.
  unfold float_of_int.
  destruct (binary_normalize prec emax n 0 false); auto with catchable.
Qed.

Lemma catchable_int_truediv a b : catchable (int_truediv a b).
Proof.
  unfold int_truediv. destruct a; auto with catchable.
  all: destruct (SFdiv_core_binary _ _ _ _ _ _) as [[mz ez] lz];
    destruct (binary_round_aux _ _ _ _ _ _); auto with catchable.
Qed.

#[local] Hint Resolve catchable_getitem catchable_contains catchable_dict_get
  catchable_float_of_int catchable_int_truediv : catchable.

Lemma catchable_mul v n : catchable (mul v n).
Proof. destruct v; simpl; auto with catchable. Qed.

Lemma catchable_truediv v n : catchable (truediv v n).
Proof. destruct v; simpl; auto with catchable. Qed.

Lemma catchable_round v : catchable (round v).
Proof.
  destruct v; simpl; auto with catchable.
  destruct f; simpl; auto with catchable.
Qed.

#[local] Hint Resolve catchable_mul catchable_truediv catchable_round : catchable.

(** ** Subscripting *)

Lemma getitem_ok_inv v k x :
  getitem v k = ok x -> exists d, v = VDict d /\ dict_lookup k d = Some x.
Proof.
  destruct v; simpl; try discriminate.
  destruct (dict_lookup k entries) eqn:E; try discriminate.
  intros H. inversion H. subst. eauto.
Qed.

Lemma getitem_dict k d x :
  dict_lookup k d = Some x -> getitem (VDict d) k = ok x.
Proof. intros H. simpl. rewrite H. reflexivity. Qed.

(** A lookup in a dict does not depend on the order of its entries. *)
Lemma dict_lookup_permutation k d d' :
  NoDup (map fst d) -> Permutation d d' -> dict_lookup k d = dict_lookup k d'.
Proof.
  intros Hnd Hp. induction Hp.
  - reflexivity.
  - destruct x as [k' v]. simpl. inversion Hnd; subst.
    destruct (String.eqb k k'); auto.
  - destruct x as [k1 v1], y as [k2 v2]. simpl.
    destruct (String.eqb_spec k k1), (String.eqb_spec k k2); auto.
    subst. inversion Hnd; subst. exfalso. apply H1. simpl. auto.
  - rewrite IHHp1 by assumption. apply IHHp2.
    eapply Permutation_NoDup; [apply Permutation_map; exact Hp1 | exact Hnd].
Qed.

(** ** Rounding to the nearest integer *)

(** [round_half_even_div m d] is an integer nearest to [m / d], and the
    even one when two integers are equally near. *)
Lemma round_half_even_div_nearest m d :
  0 < d ->
  let n := round_half_even_div m d in
  2 * Z.abs (n * d - m) <= d /\
  (2 * Z.abs (n * d - m) = d -> Z.even n = true).
Proof.
  intros Hd. unfold round_half_even_div.
  pose proof (Z.div_mod m d ltac:(lia)) as Hdm.
  pose proof (Z.mod_pos_bound m d Hd) as Hb.
  set (q := m / d) in *. set (r := m mod d) in *.
  destruct (Z.compare_spec (2 * r) d) as [He | Hl | Hg].
  - destruct (Z.even q) eqn:Ev; cbv zeta.
    + split; [nia | intros _; exact Ev].
    + split; [nia | intros _].
      rewrite Z.even_add, Ev. reflexivity.
  - cbv zeta. split; [nia | intros H; exfalso; nia].
  - cbv zeta. split; [nia | intros H; exfalso; nia].
Qed.

(* ===================================================================== *)
(** * Facts about the analyzer *)
(* ===================================================================== *)

Lemma catchable__get_metric audit : catchable (_get_metric audit).
Proof.
  unfold _get_metric.
  apply catchable_bind; [auto with catchable | intros s].
  apply catchable_bind; [| auto with catchable].
  apply catchable_bind; [auto with catchable | intros b].
  destruct b; auto with catchable.
Qed.

Lemma catchable_opportunity_of audit : catchable (opportunity_of audit).
Proof. unfold opportunity_of. auto 10 with catchable. Qed.

Lemma catchable_opportunities_loop audits keys :
  forall acc, catchable (opportunities_loop audits keys acc).
Proof.
  induction keys as [| key rest IH]; intros acc; simpl.
  - auto with catchable.
  - apply catchable_bind; [auto with catchable | intros b].
    destruct b; [| apply IH].
    apply catchable_bind; [auto with catchable | intros a].
    apply catchable_bind; [apply catchable_opportunity_of | intros o].
    apply IH.
Qed.

Lemma catchable_metrics_literal audits entries :
  catchable (metrics_literal audits entries).
Proof.
  induction entries as [| [name id] rest IH]; simpl.
  - auto with catchable.
  - apply catchable_bind; [auto with catchable | intros a].
    apply catchable_bind; [apply catchable__get_metric | intros m].
    auto with catchable.
Qed.

(** Whatever goes wrong between the decoded answer and the result is
    handled by [except Exception]. *)
Lemma catchable_build_result url strategy data :
  catchable (build_result url strategy data).
Proof.
  unfold build_result.
  do 8 (apply catchable_bind; [auto with catchable | intros ?]).
  apply catchable_bind; [apply catchable_metrics_literal | intros ms].
  apply catchable_bind; [apply catchable_opportunities_loop | intros os].
  auto with catchable.
Qed.

(** [analyze_url] in one step: the call is recorded, and the outcome of
    the [try] block decides the rest. *)
Lemma analyze_url_unfold g url strategy self :
  analyze_url g url strategy self =
  match try_block g (api_key self) url strategy with
  | inr result => (ok (Some result), entered (CallAnalyzeUrl url strategy) self)
  | inl e =>
      if is_Exception (exc_type e)
      then (ok None,
            printed (Text (error_line url strategy e))
                    (entered (CallAnalyzeUrl url strategy) self))
      else (inl e, entered (CallAnalyzeUrl url strategy) self)
  end.
Proof.
  unfold analyze_url, bindM, enter. simpl.
  destruct (try_block g (api_key self) url strategy) as [e | r]; [| reflexivity].
  destruct (is_Exception (exc_type e)); reflexivity.
Qed.

(** No method changes the credential. *)
Lemma analyze_url_api_key g url strategy self :
  api_key (snd (analyze_url g url strategy self)) = api_key self.
Proof.
  rewrite analyze_url_unfold.
  destruct (try_block g (api_key self) url strategy) as [e | r]; [| reflexivity].
  destruct (is_Exception (exc_type e)); reflexivity.
Qed.

(** In the module as written the [try] block stops at the name
    [requests]. *)
Lemma try_block_script_globals key url strategy :
  try_block script_globals key url strategy =
  raise NameError "name 'requests' is not defined".
Proof. reflexivity. Qed.

Lemma report_calls_app l1 l2 :
  report_calls (l1 ++ l2) = (report_calls l1 ++ report_calls l2)%list.
Proof.
  induction l1 as [| c l1 IH]; simpl; [reflexivity |].
  destruct c; simpl; rewrite IH; reflexivity.
Qed.

(** [run_as H t]: name [H] the equation of [t] with its value. *)
Ltac run_as H t :=
  let v := eval vm_compute in t in
  assert (H : t = v) by (vm_compute; reflexivity).

(* ===================================================================== *)
(** * The credential *)
(* ===================================================================== *)

(** C1 (the code departs from it).  Stated: an explicit [api_key]
    argument is stored, and without one the environment's value is.  At
    the input below, and in fact at every input, line 11 stores the
    literal ['API_KEY_HERE']: the left operand of [or] is a non-empty
    string, so neither the parameter nor [os.getenv] is consulted. *)
Theorem C1_init_stores_the_placeholder :
  api_key (__init__ (VStr "explicit-key") [("PAGESPEED_API_KEY", "env-key")])
    = VStr "API_KEY_HERE"
  /\ api_key (__init__ VNone [("PAGESPEED_API_KEY", "env-key")])
    = VStr "API_KEY_HERE"
  /\ forall arg environ, api_key (__init__ arg environ) = VStr "API_KEY_HERE".
Proof. repeat split. Qed.

(* ===================================================================== *)
(** * The module as written never analyzes *)
(* ===================================================================== *)

Section AsWritten.

Variable py_repr : value -> string.

(** With [requests] unbound every URL costs two error lines and two
    recorded calls, and nothing else happens. *)
Lemma analyze_one_script_globals url self :
  analyze_one py_repr script_globals url self =
  (ok tt,
   advanced 1
     (printed (Text (error_line url "mobile"
                       (Exc NameError "name 'requests' is not defined")))
        (entered (CallAnalyzeUrl url "mobile")
           (advanced 1
              (printed (Text (error_line url "desktop"
                                (Exc NameError "name 'requests' is not defined")))
                 (entered (CallAnalyzeUrl url "desktop") self)))))).
Proof. reflexivity. Qed.

Lemma analyze_loop_script_globals urls :
  forall self, exists self',
    analyze_loop py_repr script_globals urls self = (ok tt, self')
    /\ calls self' =
       (calls self
          ++ flat_map (fun u => [CallAnalyzeUrl u "desktop";
                                 CallAnalyzeUrl u "mobile"]) urls)%list.
Proof.
  induction urls as [| url rest IH]; intros self.
  - exists self. split; [reflexivity |]. simpl. rewrite app_nil_r. reflexivity.
  - cbn [analyze_loop]. unfold bindM at 1.
    rewrite analyze_one_script_globals.
    match goal with |- context [analyze_loop _ _ rest ?s] =>
      destruct (IH s) as [self' [Hrun Hcalls]] end.
    exists self'. split; [exact Hrun |].
    rewrite Hcalls. simpl. rewrite <- !app_assoc. reflexivity.
Qed.


End AsWritten.

(* ===================================================================== *)
(** * Failures *)
(* ===================================================================== *)

(** Every failure of the [try] block is one the handler catches. *)
Lemma try_block_failure g key url strategy e :
  failure g key url strategy e ->
  try_block g key url strategy = inl e /\ is_Exception (exc_type e) = true.
Proof.
  intros F. unfold try_block, fetch.
  destruct F as [e Hn | get e Hg He Hc | get response e Hg Hr Hs Hc
                | get response e Hg Hr Hs Hj Hc
                | get response data e Hg Hr Hs Hj Hb].
  - rewrite Hn. simpl. split; [reflexivity |].
    unfold requests_get, load_global in Hn.
    destruct (lookup_global "requests" g) as [[q | c] |]; simpl in Hn;
      inversion Hn; reflexivity.
  - rewrite Hg. simpl. rewrite He. simpl. auto.
  - rewrite Hg. simpl. rewrite Hr. simpl. rewrite Hs. simpl. auto.
  - rewrite Hg. simpl. rewrite Hr. simpl. rewrite Hs. simpl. rewrite Hj. auto.
  - rewrite Hg. simpl. rewrite Hr. simpl. rewrite Hs. simpl. rewrite Hj. simpl.
    split; [exact Hb |]. eapply catchable_build_result. exact Hb.
Qed.

(** Conversely, whatever the [try] block raises and the handler catches
    is one of these failures. *)
Lemma try_block_failure_complete g key url strategy e :
  try_block g key url strategy = inl e ->
  is_Exception (exc_type e) = true ->
  failure g key url strategy e.
Proof.
  unfold try_block, fetch. intros H Hc.
  destruct (requests_get g) as [e0 | get] eqn:Hg; cbn [bind] in H.
  { inversion H; subst. apply failure_name. exact Hg. }
  destruct (get api_url (request_params key url strategy))
    as [e0 | response] eqn:Hr; cbn [bind] in H.
  { inversion H; subst. eapply failure_transport; eassumption. }
  destruct (Requests.raise_for_status response) as [e0 | []] eqn:Hs;
    cbn [bind] in H.
  { inversion H; subst. eapply failure_status; eassumption. }
  destruct (Requests.json response) as [e0 | data] eqn:Hj; cbn [bind] in H.
  { inversion H; subst. eapply failure_decoding; eassumption. }
  eapply failure_lookup; eassumption.
Qed.



(* ===================================================================== *)
(** * Determinism *)
(* ===================================================================== *)

(** C9.  What [analyze_url] returns is a function of the module's names
    (hence of the client and of what it answers), of the credential, of
    the URL and of the strategy.  The console, the progress counter and
    the record of calls do not enter it, and a call leaves the credential
    as it found it: calling twice in a row returns the same result. *)
Theorem C9_analysis_is_deterministic g url strategy self other :
  api_key other = api_key self ->
  fst (analyze_url g url strategy other) = fst (analyze_url g url strategy self)
  /\ fst (analyze_url g url strategy (snd (analyze_url g url strategy self)))
     = fst (analyze_url g url strategy self).
Proof.
  assert (Hdet : forall a b, api_key a = api_key b ->
            fst (analyze_url g url strategy a) = fst (analyze_url g url strategy b)).
  { intros a b Hk. rewrite !analyze_url_unfold, Hk.
    destruct (try_block g (api_key b) url strategy) as [e | r]; [| reflexivity].
    destruct (is_Exception (exc_type e)); reflexivity. }
  intros Hk. split.
  - apply Hdet. exact Hk.
  - apply Hdet. apply analyze_url_api_key.
Qed.

(** The sample answer analyzed from a fresh reporter and from one that has
    already printed, progressed and been called. *)
Lemma C9_analysis_is_deterministic_witness :
  let g := with_requests Sample.client_ok in
  let used :=
    mkReporter (VStr "API_KEY_HERE") [Text "earlier output"] 7
               [CallAnalyzeUrl "https://example.org" "mobile"] in
  fst (analyze_url g "https://example.com" "desktop" used)
    = fst (analyze_url g "https://example.com" "desktop" Sample.reporter)
  /\ fst (analyze_url g "https://example.com" "desktop"
            (snd (analyze_url g "https://example.com" "desktop" Sample.reporter)))
     = fst (analyze_url g "https://example.com" "desktop" Sample.reporter).
Proof.
  intros g used.
  apply (C9_analysis_is_deterministic g "https://example.com" "desktop"
           Sample.reporter used).
  reflexivity.
Defined.

(* ===================================================================== *)
(** * Reporting *)
(* ===================================================================== *)

Lemma keeps_calls_ret {A : Type} (a : A) : keeps_calls (ret a).
Proof. intros self. reflexivity. Qed.

Lemma keeps_calls_lift {A : Type} (c : res A) : keeps_calls (lift c).
Proof. intros self. reflexivity. Qed.

Lemma keeps_calls_print x : keeps_calls (console_print x).
Proof. intros self. reflexivity. Qed.

Lemma keeps_calls_bindM {A B : Type} (c : M A) (k : A -> M B) :
  keeps_calls c -> (forall a, keeps_calls (k a)) -> keeps_calls (bindM c k).
Proof.
  intros Hc Hk self. unfold bindM.
  specialize (Hc self). destruct (c self) as [[e | a] self1]; simpl in *.
  - exact Hc.
  - rewrite (Hk a self1). exact Hc.
Qed.

Create HintDb keeps_calls.
#[local] Hint Resolve keeps_calls_ret keeps_calls_lift keeps_calls_print
  keeps_calls_bindM : keeps_calls.

Section Reporting.

Variable py_repr : value -> string.

Lemma keeps_calls_report_section result :
  keeps_calls (report_section py_repr result).
Proof. unfold report_section. auto 20 with keeps_calls. Qed.

(** [display_report] records its entry, whether or not it then runs to
    its end. *)
Lemma display_report_calls url d m self :
  calls (snd (display_report py_repr url d m self))
  = (calls self ++ [CallDisplayReport url d m])%list.
Proof.
  unfold display_report.
  change (calls self ++ [CallDisplayReport url d m])%list
    with (calls (entered (CallDisplayReport url d m) self)).
  unfold bindM at 1. simpl.
  apply (keeps_calls_bindM _ _ (keeps_calls_print _)).
  intros _. apply keeps_calls_bindM; intros; apply keeps_calls_report_section.
Qed.

(** What [analyze_url] leaves on the console: nothing, or its error line. *)
Lemma analyze_url_console g url strategy self r self' :
  analyze_url g url strategy self = (ok r, self') ->
  calls self' = (calls self ++ [CallAnalyzeUrl url strategy])%list
  /\ ((present r = true /\ console self' = console self)
      \/ (present r = false /\
          exists e, console self'
                    = (console self ++ [Text (error_line url strategy e)])%list)).
Proof.
  rewrite analyze_url_unfold.
  destruct (try_block g (api_key self) url strategy) as [e | res].
  - destruct (is_Exception (exc_type e)); intros H; inversion H; subst.
    split; [reflexivity |]. right. split; [reflexivity |].
    exists e. reflexivity.
  - intros H; inversion H; subst. split; [reflexivity |]. left. split; reflexivity.
Qed.

(** C8.  For a URL whose two analyses returned [d] and [m], the loop body
    enters [display_report] exactly when both are present, and then with
    these two results, as the last thing it does.  When one is absent the body ends normally having
    printed nothing but the error lines of the analyses, and the loop
    goes on with the remaining URLs. *)
Theorem C8_report_iff_both_present g url self d s1 m s2 :
  analyze_url g url "desktop" self = (ok d, s1) ->
  analyze_url g url "mobile" (advanced 1 s1) = (ok m, s2) ->
  report_calls (calls (snd (analyze_one py_repr g url self)))
  = (report_calls (calls self)
       ++ match d, m with
          | Some rd, Some rm => [(url, rd, rm)]
          | _, _ => []
          end)%list
  /\ (forall rd rm,
         d = Some rd -> m = Some rm ->
         analyze_one py_repr g url self
         = display_report py_repr url rd rm (advanced 1 s2))
  /\ (present d && present m = false ->
      analyze_one py_repr g url self = (ok tt, advanced 1 s2)
      /\ (exists lines,
             console (advanced 1 s2) = (console self ++ lines)%list
             /\ Forall (fun x => exists strategy e,
                            x = Text (error_line url strategy e)) lines)
      /\ forall rest,
           analyze_loop py_repr g (url :: rest) self
           = analyze_loop py_repr g rest (advanced 1 s2)).
Proof.
  intros Hd Hm.
  assert (Hone : analyze_one py_repr g url self =
                 match d, m with
                 | Some rd, Some rm => display_report py_repr url rd rm (advanced 1 s2)
                 | _, _ => (ok tt, advanced 1 s2)
                 end).
  { unfold analyze_one, bindM. rewrite Hd. simpl. rewrite Hm. simpl.
    destruct d, m; reflexivity. }
  destruct (analyze_url_console _ _ _ _ _ _ Hd) as [Hc1 Ho1].
  destruct (analyze_url_console _ _ _ _ _ _ Hm) as [Hc2 Ho2].
  simpl in Hc2, Ho2.
  assert (Hcalls : report_calls (calls (advanced 1 s2)) = report_calls (calls self)).
  { simpl. rewrite Hc2, Hc1, !report_calls_app. simpl. rewrite !app_nil_r.
    reflexivity. }
  split; [| split].
  - rewrite Hone. destruct d as [rd |], m as [rm |];
      try (simpl snd; rewrite Hcalls, app_nil_r; reflexivity).
    rewrite display_report_calls, report_calls_app, Hcalls. reflexivity.
  - intros rd rm -> ->. exact Hone.
  - intros Habsent.
    assert (Hout : analyze_one py_repr g url self = (ok tt, advanced 1 s2)).
    { rewrite Hone. destruct d, m; try reflexivity. discriminate Habsent. }
    split; [exact Hout |]. split.
    + simpl.
      destruct Ho1 as [[_ E1] | [_ [e1 E1]]], Ho2 as [[_ E2] | [_ [e2 E2]]];
        rewrite E2, E1.
      * exists []. split; [rewrite app_nil_r; reflexivity | constructor].
      * exists [Text (error_line url "mobile" e2)].
        split; [reflexivity | repeat constructor; eauto].
      * exists [Text (error_line url "desktop" e1)].
        split; [reflexivity | repeat constructor; eauto].
      * exists [Text (error_line url "desktop" e1);
                Text (error_line url "mobile" e2)].
        split; [rewrite <- app_assoc; reflexivity | repeat constructor; eauto].
    + intros rest. cbn [analyze_loop]. unfold bindM at 1. rewrite Hout.
      reflexivity.
Qed.

End Reporting.

(** A URL whose desktop analysis succeeds and whose mobile analysis times
    out: no report, one error line, and the loop goes on. *)
Lemma C8_report_iff_both_present_witness :
  let g := with_requests Sample.client_desktop_only in
  let after :=
    mkReporter (VStr "API_KEY_HERE")
      [Text "[red]Error analyzing https://example.com (mobile): Read timed out.[/red]"]
      2
      [CallAnalyzeUrl "https://example.com" "desktop";
       CallAnalyzeUrl "https://example.com" "mobile"] in
  report_calls
    (calls (snd (analyze_one Sample.repr g "https://example.com" Sample.reporter)))
  = []
  /\ analyze_one Sample.repr g "https://example.com" Sample.reporter
     = (ok tt, after)
  /\ analyze_loop Sample.repr g ["https://example.com"; "https://example.org"]
       Sample.reporter
     = analyze_loop Sample.repr g ["https://example.org"] after.
Proof.
  intros g after.
  run_as Hd (analyze_url g "https://example.com" "desktop" Sample.reporter).
  match type of Hd with
  | _ = (_, ?s1) =>
      run_as Hm (analyze_url g "https://example.com" "mobile" (advanced 1 s1))
  end.
  destruct (C8_report_iff_both_present Sample.repr g "https://example.com"
              Sample.reporter _ _ _ _ Hd Hm) as [Hcalls [_ Habsent]].
  destruct (Habsent eq_refl) as [Hone [_ Hloop]].
  split; [exact Hcalls |]. split; [exact Hone | exact (Hloop _)].
Defined.

(* ===================================================================== *)
(** * What a successful analysis holds *)
(* ===================================================================== *)

(** [build_result] by the two paths it reads. *)
Lemma build_result_paths url strategy data :
  build_result url strategy data =
  (audits <- response_audits data ;;
   s <- performance_score data ;;
   s100 <- mul s 100 ;;
   score <- round s100 ;;
   metrics <- metrics_literal audits metric_table ;;
   opportunities <- _get_opportunities audits ;;
   ok (mkResult url strategy score metrics opportunities)).
Proof.
  unfold build_result, response_audits, performance_score.
  destruct (getitem data "lighthouseResult") as [e | lr]; [reflexivity |].
  simpl. destruct (getitem lr "audits") as [e | audits]; [reflexivity |].
  simpl. destruct (getitem lr "categories") as [e | cs]; [reflexivity |].
  simpl. destruct (getitem cs "performance") as [e | pf]; reflexivity.
Qed.

Lemma bind_ok_inv {A B : Type} (c : res A) (k : A -> res B) (b : B) :
  bind c k = ok b -> exists a, c = ok a /\ k a = ok b.
Proof.
  destruct c as [e | a]; simpl; intros H; [discriminate H |].
  exists a. split; [reflexivity | exact H].
Qed.

Lemma build_result_ok_inv url strategy data r :
  build_result url strategy data = ok r ->
  exists audits s s100,
    response_audits data = ok audits
    /\ performance_score data = ok s
    /\ mul s 100 = ok s100
    /\ round s100 = ok (r_score r)
    /\ metrics_literal audits metric_table = ok (r_metrics r)
    /\ _get_opportunities audits = ok (r_opportunities r)
    /\ r_url r = url /\ r_strategy r = strategy.
Proof.
  rewrite build_result_paths. intros H.
  apply bind_ok_inv in H. destruct H as [audits [Ha H]].
  apply bind_ok_inv in H. destruct H as [s [Hs H]].
  apply bind_ok_inv in H. destruct H as [s100 [Hm H]].
  apply bind_ok_inv in H. destruct H as [score [Hr H]].
  apply bind_ok_inv in H. destruct H as [ms [Hms H]].
  apply bind_ok_inv in H. destruct H as [os [Hos H]].
  inversion H; subst; clear H. simpl.
  exists audits, s, s100. repeat (split; [assumption |]). split; reflexivity.
Qed.

(** A present result is what the [try] block built from the answer. *)
Lemma analyze_url_present_inv g url strategy self self' data r :
  fetch g (api_key self) url strategy = ok data ->
  analyze_url g url strategy self = (ok (Some r), self') ->
  build_result url strategy data = ok r.
Proof.
  intros Hf. rewrite analyze_url_unfold. unfold try_block. rewrite Hf. simpl.
  destruct (build_result url strategy data) as [e | r'].
  - destruct (is_Exception (exc_type e)); intros H; discriminate H.
  - intros H. inversion H. reflexivity.
Qed.

(** ** Dicts that agree on the keys read *)

Lemma getitem_agree d d' k :
  dict_lookup k d = dict_lookup k d' ->
  getitem (VDict d) k = getitem (VDict d') k.
Proof. intros H. simpl. rewrite H. reflexivity. Qed.

Lemma contains_agree d d' k :
  dict_lookup k d = dict_lookup k d' ->
  contains k (VDict d) = contains k (VDict d').
Proof. intros H. simpl. rewrite H. reflexivity. Qed.

Lemma metrics_literal_agree d d' entries :
  (forall name id, In (name, id) entries -> dict_lookup id d = dict_lookup id d') ->
  metrics_literal (VDict d) entries = metrics_literal (VDict d') entries.
Proof.
  induction entries as [| [name id] rest IH]; intros H; [reflexivity |].
  cbn [metrics_literal].
  rewrite (getitem_agree d d' id) by (apply (H name); left; reflexivity).
  rewrite IH by (intros n i Hin; apply (H n); right; exact Hin).
  reflexivity.
Qed.

Lemma opportunities_loop_agree d d' keys :
  (forall k, In k keys -> dict_lookup k d = dict_lookup k d') ->
  forall acc,
    opportunities_loop (VDict d) keys acc = opportunities_loop (VDict d') keys acc.
Proof.
  induction keys as [| key rest IH]; intros H acc; [reflexivity |].
  assert (Hrest : forall k, In k rest -> dict_lookup k d = dict_lookup k d')
    by (intros k Hin; apply H; right; exact Hin).
  cbn [opportunities_loop].
  rewrite (contains_agree d d' key), (getitem_agree d d' key)
    by (apply H; left; reflexivity).
  destruct (contains key (VDict d')) as [e | []]; cbn [bind];
    [reflexivity | | apply IH; exact Hrest].
  destruct (getitem (VDict d') key) as [e | a]; cbn [bind]; [reflexivity |].
  destruct (opportunity_of a) as [e | o]; cbn [bind]; [reflexivity |].
  apply IH. exact Hrest.
Qed.

(** ** The metrics *)

Lemma metrics_literal_ok audits entries :
  forall ms, metrics_literal audits entries = ok ms ->
             Forall2 (metric_entry_of audits) entries ms.
Proof.
  induction entries as [| [name id] rest IH]; intros ms H.
  - inversion H. constructor.
  - cbn [metrics_literal] in H.
    apply bind_ok_inv in H. destruct H as [a [Ha H]].
    apply bind_ok_inv in H. destruct H as [m [Hm H]].
    apply bind_ok_inv in H. destruct H as [ms' [Hms H]].
    inversion H; subst. constructor; [| apply IH; exact Hms].
    split; [reflexivity |]. exists a. split; assumption.
Qed.

Lemma metrics_literal_names audits entries ms :
  metrics_literal audits entries = ok ms -> map fst ms = map fst entries.
Proof.
  intros H. apply metrics_literal_ok in H.
  induction H as [| e m es ms' [Hn _] _ IH]; simpl; [reflexivity |].
  rewrite Hn, IH. reflexivity.
Qed.

Lemma metrics_literal_fails audits entries name id audit e :
  In (name, id) entries ->
  getitem audits id = ok audit ->
  _get_metric audit = inl e ->
  exists e', metrics_literal audits entries = inl e'.
Proof.
  intros Hin Ha Hm. induction entries as [| [n i] rest IH]; [contradiction |].
  cbn [metrics_literal].
  destruct (getitem audits i) as [e1 | a1] eqn:E1; simpl; [eauto |].
  destruct (_get_metric a1) as [e2 | m1] eqn:E2; simpl; [eauto |].
  destruct Hin as [Heq | Hin].
  - inversion Heq; subst. rewrite Ha in E1. inversion E1; subst.
    rewrite Hm in E2. discriminate E2.
  - destruct (IH Hin) as [e' He']. rewrite He'. simpl. eauto.
Qed.

(** What [_get_metric] returns, field by field. *)
Lemma _get_metric_ok_inv audit mv :
  _get_metric audit = ok mv ->
  exists fields,
    audit = VDict fields
    /\ dict_lookup "score" fields = Some (mv_score mv)
    /\ dict_lookup "displayValue" fields = Some (mv_displayValue mv)
    /\ match dict_lookup "numericValue" fields with
       | Some ms => truediv ms 1000 = ok (mv_value mv)
       | None => mv_value mv = VInt 0
       end.
Proof.
  unfold _get_metric. intros H.
  apply bind_ok_inv in H. destruct H as [s [Hs H]].
  apply getitem_ok_inv in Hs. destruct Hs as [fields [-> Hs]].
  exists fields. split; [reflexivity |].
  apply bind_ok_inv in H. destruct H as [v [Hv H]].
  apply bind_ok_inv in H. destruct H as [d [Hd H]].
  apply getitem_ok_inv in Hd. destruct Hd as [fields' [Heq Hd]].
  inversion Heq; subst fields'. inversion H; subst; clear H. simpl.
  split; [exact Hs |]. split; [exact Hd |].
  simpl in Hv. destruct (dict_lookup "numericValue" fields) as [ms |]; simpl in Hv.
  - exact Hv.
  - inversion Hv. reflexivity.
Qed.

(** [_get_metric] on a dict, by the three keys it reads. *)
Lemma _get_metric_dict fields :
  _get_metric (VDict fields) =
  match dict_lookup "score" fields with
  | None => raise KeyError "'score'"
  | Some s =>
      v <- match dict_lookup "numericValue" fields with
           | Some ms => truediv ms 1000
           | None => ok (VInt 0)
           end ;;
      match dict_lookup "displayValue" fields with
      | None => raise KeyError "'displayValue'"
      | Some d => ok (mkMetric s v d)
      end
  end.
Proof.
  unfold _get_metric. simpl.
  destruct (dict_lookup "score" fields); [| reflexivity]. simpl.
  destruct (dict_lookup "numericValue" fields); simpl.
  - destruct (truediv v0 1000); simpl; [reflexivity |].
    destruct (dict_lookup "displayValue" fields); reflexivity.
  - destruct (dict_lookup "displayValue" fields); reflexivity.
Qed.

Lemma sample_audits_nodup : NoDup (map fst Sample.audits).
Proof.
  repeat (constructor; [simpl; intuition discriminate |]). constructor.
Qed.





(** ** The opportunities *)

Lemma opportunities_loop_ok d keys :
  forall acc out,
    opportunities_loop (VDict d) keys acc = ok out ->
    exists new,
      out = (acc ++ new)%list
      /\ Forall2 (opportunity_entry_of d) (filter (has_key d) keys) new.
Proof.
  induction keys as [| key rest IH]; intros acc out H.
  - inversion H. exists []. split; [symmetry; apply app_nil_r | constructor].
  - cbn [opportunities_loop contains bind ok] in H.
    cbn [filter]. unfold has_key at 1.
    destruct (dict_lookup key d) as [audit |] eqn:E.
    + rewrite (getitem_dict _ _ _ E) in H. cbn [bind ok] in H.
      apply bind_ok_inv in H. destruct H as [o [Ho H]].
      apply IH in H. destruct H as [new [-> Hnew]].
      exists (o :: new). split; [rewrite <- app_assoc; reflexivity |].
      constructor; [| exact Hnew]. exists audit. split; assumption.
    + apply IH in H. exact H.
Qed.



(* ===================================================================== *)
(** * Scores and tiers *)
(* ===================================================================== *)

Lemma get_score_color_int n :
  get_score_color (VInt n)
  = ok (if 90 <=? n then "green" else if 50 <=? n then "yellow" else "red").
Proof.
  unfold get_score_color, py_ge, compare_int. simpl.
  destruct (Z.compare_spec n 90), (Z.leb_spec 90 n); try lia; try reflexivity;
    destruct (Z.compare_spec n 50), (Z.leb_spec 50 n); try lia; reflexivity.
Qed.

(** [round] of a finite float [v * 2^e] is [v * 2^e] itself when that is an
    integer, and otherwise an integer nearest to it, the even one of two. *)
Lemma round_finite_nearest sign m e n :
  round (VFloat (S754_finite sign m e)) = ok n ->
  let v := if sign then Zneg m else Zpos m in
  (0 <= e -> n = v * 2 ^ e)
  /\ (e < 0 ->
      2 * Z.abs (n * 2 ^ (- e) - v) <= 2 ^ (- e)
      /\ (2 * Z.abs (n * 2 ^ (- e) - v) = 2 ^ (- e) -> Z.even n = true)).
Proof.
  simpl. intros H. inversion H as [Hn]. clear H. split.
  - intros He. unfold round_magnitude. destruct e as [| p | p]; try lia;
      destruct sign; lia.
  - intros He. destruct e as [| p | p]; try lia.
    unfold round_magnitude. change (- Z.neg p) with (Z.pos p).
    assert (Hd : 0 < 2 ^ Z.pos p) by (apply Z.pow_pos_nonneg; lia).
    pose proof (round_half_even_div_nearest (Z.pos m) (2 ^ Z.pos p) Hd) as Hnear.
    cbv zeta in Hnear. destruct Hnear as [Hle Heven].
    set (q := round_half_even_div (Z.pos m) (2 ^ Z.pos p)) in *.
    destruct sign.
    + replace (- q * 2 ^ Z.pos p - Z.neg m) with (- (q * 2 ^ Z.pos p - Z.pos m))
        by lia.
      rewrite Z.abs_opp, Z.even_opp. split; assumption.
    + split; assumption.
Qed.

(** ** The binary64 product of a score in [0,1] and 100 *)

Lemma digits2_pos_size p : digits2_pos p = Pos.size p.
Proof. induction p as [p IH | p IH |]; simpl; try rewrite IH; reflexivity. Qed.

(** A positive number below [2^k] has at most [k] binary digits. *)
Lemma Zdigits2_le m k :
  0 < m -> m < 2 ^ k -> Zdigits2 m <= k.
Proof.
  intros Hm Hk. destruct m as [| p | p]; try lia. simpl.
  rewrite digits2_pos_size.
  destruct (Z.le_gt_cases (Z.pos (Pos.size p)) k) as [Hle | Hgt]; [exact Hle |].
  exfalso. pose proof (Pos.size_le p) as Hs.
  assert (H2 : 2 ^ Z.pos (Pos.size p) <= 2 * Z.pos p).
  { change (2 * Z.pos p) with (Z.pos p~0). rewrite <- Pos2Z.inj_pow.
    apply Pos2Z.pos_le_pos. exact Hs. }
  assert (0 <= k).
  { destruct (Z.le_gt_cases 0 k); [assumption |].
    rewrite Z.pow_neg_r in Hk by lia. lia. }
  assert (H3 : 2 ^ (k + 1) <= 2 ^ Z.pos (Pos.size p))
    by (apply Z.pow_le_mono_r; lia).
  rewrite Z.pow_add_r in H3 by lia. lia.
Qed.

(** A number of at most [k] binary digits is below [2^k]. *)
Lemma Zdigits2_gt p : Z.pos p < 2 ^ Z.pos (digits2_pos p).
Proof.
  rewrite digits2_pos_size, <- Pos2Z.inj_pow. apply Pos2Z.pos_lt_pos.
  apply Pos.size_gt.
Qed.

Lemma shifted_shr_1 M n mrs :
  0 <= n -> shifted M n mrs -> shifted M (n + 1) (shr_1 mrs).
Proof.
  intros Hn [Hpos Hle]. destruct mrs as [m r s]. unfold shifted.
  cbn [shr_m shr_r shr_s] in Hpos, Hle.
  assert (E : 2 ^ (n + 1) = 2 * 2 ^ n) by (rewrite Z.pow_add_r by lia; lia).
  rewrite E. clear E.
  assert (Hp : 0 < 2 ^ n) by (apply Z.pow_pos_nonneg; lia).
  destruct m as [| [p | p |] | p]; try lia;
    destruct r, s; cbn [shr_1 shr_m shr_r shr_s orb] in *; split; try lia; nia.
Qed.

Lemma shifted_iter_pos M p :
  forall n mrs, 0 <= n -> shifted M n mrs ->
                shifted M (n + Z.pos p) (iter_pos shr_1 p mrs).
Proof.
  induction p as [p IH | p IH |]; intros n mrs Hn H; simpl.
  - replace (n + Z.pos p~1) with (n + 1 + Z.pos p + Z.pos p) by lia.
    apply IH; [lia |]. apply IH; [lia |]. apply shifted_shr_1; assumption.
  - replace (n + Z.pos p~0) with (n + Z.pos p + Z.pos p) by lia.
    apply IH; [lia |]. apply IH; assumption.
  - apply shifted_shr_1; assumption.
Qed.

Lemma pow2_split a b : 0 <= a -> 0 <= b -> 2 ^ (a + b) = 2 ^ a * 2 ^ b.
Proof. intros. apply Z.pow_add_r; assumption. Qed.

(** The first step of rounding [m * 2^e], for a value of at most 100 and an
    exponent of at most -46: the exponent stays at most -46. *)
Lemma shr_fexp_unit m e :
  0 <= m -> e <= -46 -> m <= 100 * 2 ^ (- e) ->
  e <= snd (shr_fexp prec emax m e loc_Exact) <= -46
  /\ shifted m (snd (shr_fexp prec emax m e loc_Exact) - e)
             (fst (shr_fexp prec emax m e loc_Exact)).
Proof.
  intros Hm He Hle.
  assert (Hstart : shifted m 0 (shr_record_of_loc m loc_Exact)).
  { unfold shifted. simpl. lia. }
  assert (Hd : Zdigits2 m + e <= 7).
  { destruct (Z.eq_dec m 0) as [-> | Hnz]; [simpl; lia |].
    assert (Hlt : m < 2 ^ (7 - e)).
    { replace (7 - e) with (7 + - e) by lia. rewrite pow2_split by lia.
      assert (0 < 2 ^ (- e)) by (apply Z.pow_pos_nonneg; lia).
      change (2 ^ 7) with 128. lia. }
    pose proof (Zdigits2_le m (7 - e) ltac:(lia) Hlt). lia. }
  unfold shr_fexp, shr, fexp, emin, prec, emax in *.
  destruct (Z.max (Zdigits2 m + e - 53) (3 - 1024 - 53) - e) as [| p | p] eqn:En;
    cbn [fst snd].
  - split; [lia |]. replace (e - e) with 0 by lia. exact Hstart.
  - split; [lia |].
    replace (e + Z.pos p - e) with (0 + Z.pos p) by lia.
    apply shifted_iter_pos; [lia | exact Hstart].
  - split; [lia |]. replace (e - e) with 0 by lia. exact Hstart.
Qed.

Lemma round_nearest_even_bound m n mrs B :
  0 <= n -> shifted m n mrs -> m <= B * 2 ^ n ->
  0 <= round_nearest_even (shr_m mrs) (loc_of_shr_record mrs) <= B.
Proof.
  intros Hn [Hpos Hle] HB.
  assert (Hp : 0 < 2 ^ n) by (apply Z.pow_pos_nonneg; lia).
  destruct mrs as [m' r s]. cbn [shr_m shr_r shr_s] in *.
  destruct r, s; cbn [loc_of_shr_record round_nearest_even orb] in *;
    try destruct (Z.even m'); split; try lia; nia.
Qed.

(** Rounding a value of at most 100 to binary64 gives zero or a finite
    float of at most 100. *)
Lemma binary_round_aux_unit M E :
  0 <= M -> E <= -46 -> M <= 100 * 2 ^ (- E) ->
  match binary_round_aux prec emax false M E loc_Exact with
  | S754_zero _ => True
  | S754_finite false m e => e <= -46 /\ Z.pos m <= 100 * 2 ^ (- e)
  | _ => False
  end.
Proof.
  intros HM HE Hle. unfold binary_round_aux.
  destruct (shr_fexp_unit M E HM HE Hle) as [He1 Hs1].
  destruct (shr_fexp prec emax M E loc_Exact) as [mrs1 e1]. cbn [fst snd] in *.
  assert (Hm1 : 0 <= round_nearest_even (shr_m mrs1) (loc_of_shr_record mrs1)
                <= 100 * 2 ^ (- e1)).
  { apply (round_nearest_even_bound M (e1 - E)); [lia | exact Hs1 |].
    replace (- E) with (- e1 + (e1 - E)) in Hle by lia.
    rewrite pow2_split in Hle by lia. lia. }
  set (m1 := round_nearest_even (shr_m mrs1) (loc_of_shr_record mrs1)) in *.
  destruct (shr_fexp_unit m1 e1 ltac:(lia) ltac:(lia) ltac:(lia)) as [He2 Hs2].
  destruct (shr_fexp prec emax m1 e1 loc_Exact) as [mrs2 e2]. cbn [fst snd] in *.
  destruct Hs2 as [Hpos2 Hle2].
  assert (Hp : 0 < 2 ^ (e2 - e1)) by (apply Z.pow_pos_nonneg; lia).
  assert (Hm2 : shr_m mrs2 <= 100 * 2 ^ (- e2)).
  { destruct Hm1 as [_ Hm1].
    replace (- e1) with (- e2 + (e2 - e1)) in Hm1 by lia.
    rewrite pow2_split in Hm1 by lia.
    destruct (shr_r mrs2 || shr_s mrs2); nia. }
  destruct (shr_m mrs2) as [| p | p]; [exact I | | lia].
  replace (e2 <=? emax - prec) with true
    by (symmetry; apply Z.leb_le; unfold emax, prec; lia).
  split; [lia | exact Hm2].
Qed.

Lemma round_half_even_div_bound m d B :
  0 < d -> 0 <= m <= B * d -> 0 <= round_half_even_div m d <= B.
Proof.
  intros Hd Hm. unfold round_half_even_div.
  pose proof (Z.div_mod m d ltac:(lia)) as Hdm.
  pose proof (Z.mod_pos_bound m d Hd) as Hb.
  set (q := m / d) in *. set (r := m mod d) in *.
  assert (0 <= q) by nia. assert (q <= B) by nia.
  destruct (Z.compare_spec (2 * r) d); try destruct (Z.even q);
    split; try lia; nia.
Qed.

(** A valid binary64 score between 0 and 1: its product with 100 rounds
    to an integer between 0 and 100. *)
Lemma unit_score_rounds f :
  valid_binary prec emax f = true ->
  SFleb (S754_zero false) f = true ->
  SFleb f float_1 = true ->
  exists n, round (VFloat (SFmul prec emax f float_100)) = ok n /\ 0 <= n <= 100.
Proof.
  intros Hv H0 H1. destruct f as [s | s | | s m e]; try discriminate.
  - exists 0. destruct s; split; try reflexivity; lia.
  - destruct s; discriminate.
  - destruct s; [discriminate |].
    unfold valid_binary, bounded, canonical_mantissa, fexp, emin, prec, emax in Hv.
    apply andb_prop in Hv. destruct Hv as [Hc _]. apply Z.eqb_eq in Hc.
    assert (Hdig : Z.pos (digits2_pos m) <= 53) by lia.
    pose proof (Zdigits2_gt m) as Hgt.
    assert (Hunit : e <= -52 /\ Z.pos m <= 2 ^ (- e)).
    { unfold SFleb, SFcompare, float_1 in H1.
      destruct (Z.compare_spec e (-52)) as [He | He | He]; try discriminate.
      - subst e. split; [lia |]. change (2 ^ (- -52)) with 4503599627370496.
        rewrite Pos.compare_cont_spec in H1. cbn [Pos.switch_Eq] in H1.
        clear - H1.
        destruct (Pos.compare_spec m 4503599627370496) as [Hc | Hc | Hc];
          [subst m; reflexivity | | discriminate H1].
        apply Pos2Z.pos_lt_pos in Hc. apply Z.lt_le_incl. exact Hc.
      - split; [lia |].
        assert (2 ^ Z.pos (digits2_pos m) <= 2 ^ (- e))
          by (apply Z.pow_le_mono_r; lia).
        clear - H Hgt. lia. }
    destruct Hunit as [He Hm].
    pose proof (binary_round_aux_unit (Z.pos (m * 7036874417766400)) (e + -46)) as Hr.
    unfold SFmul, float_100. cbn [xorb].
    destruct (binary_round_aux prec emax false
                (Z.pos (m * 7036874417766400)) (e + -46) loc_Exact)
      as [s' | s' | | s' m' e'].
    + exists 0. split; [reflexivity | lia].
    + exfalso. apply Hr; try lia.
      replace (- (e + -46)) with (46 + - e) by lia. rewrite pow2_split by lia.
      change (2 ^ 46) with 70368744177664. rewrite Pos2Z.inj_mul. lia.
    + exfalso. apply Hr; try lia.
      replace (- (e + -46)) with (46 + - e) by lia. rewrite pow2_split by lia.
      change (2 ^ 46) with 70368744177664. rewrite Pos2Z.inj_mul. lia.
    + assert (Hfin : match s' with
                     | false => e' <= -46 /\ Z.pos m' <= 100 * 2 ^ (- e')
                     | true => False
                     end).
      { destruct s'; apply Hr; try lia.
        all: replace (- (e + -46)) with (46 + - e) by lia;
          rewrite pow2_split by lia;
          change (2 ^ 46) with 70368744177664; rewrite Pos2Z.inj_mul; lia. }
      destruct s'; [contradiction |]. destruct Hfin as [He' Hm'].
      destruct e' as [| p | p]; try lia.
      exists (round_half_even_div (Z.pos m') (2 ^ Z.pos p)).
      split; [reflexivity |].
      apply round_half_even_div_bound; [apply Z.pow_pos_nonneg; lia |].
      change (- Z.neg p) with (Z.pos p) in Hm'. lia.
Qed.



(* ===================================================================== *)
(** * The opportunities table *)
(* ===================================================================== *)

Lemma string_app_assoc (a b c : string) : (a ++ b) ++ c = a ++ b ++ c.
Proof. induction a as [| x a IH]; simpl; [reflexivity | rewrite IH; reflexivity]. Qed.

(** The test of line 106 succeeds on numbers only, and tells whether the
    score is strictly below 1. *)
Lemma py_lt_one_inv o below :
  py_lt (opp_score o) 1 = ok below -> numeric_score o /\ below = below_one o.
Proof.
  unfold numeric_score, below_one, py_lt, compare_int.
  destruct (opp_score o) as [| b | n | f | s | l | d]; simpl;
    intros H; try discriminate H; inversion H; split; try exact I.
  - destruct b; reflexivity.
  - reflexivity.
  - reflexivity.
Qed.

Lemma py_lt_one_numeric o :
  numeric_score o -> py_lt (opp_score o) 1 = ok (below_one o).
Proof.
  unfold numeric_score, below_one, py_lt, compare_int.
  destruct (opp_score o) as [| b | n | f | s | l | d]; simpl;
    intros H; try contradiction; try reflexivity.
  destruct b; reflexivity.
Qed.

(** A number times 100 has a color. *)
Lemma score_color_numeric v :
  numeric v ->
  exists s100 color, mul v 100 = ok s100 /\ get_score_color s100 = ok color.
Proof.
  destruct v as [| b | n | f | s | l | d]; simpl; intros H; try contradiction.
  - eexists. rewrite get_score_color_int. eauto.
  - eexists. rewrite get_score_color_int. eauto.
  - set (p := SFmul prec emax f float_100).
    assert (Hc : exists color, get_score_color (VFloat p) = ok color).
    { unfold get_score_color, py_ge, compare_int.
      change (float_of_int 90)
        with (@ok spec_float (S754_finite false 6333186975989760 (-46))).
      change (float_of_int 50)
        with (@ok spec_float (S754_finite false 7036874417766400 (-47))).
      cbn [bind ok].
      destruct (SFcompare p (S754_finite false 6333186975989760 (-46)))
        as [[| |] |]; cbn [bind ok]; try (eexists; reflexivity);
        destruct (SFcompare p (S754_finite false 7036874417766400 (-47)))
        as [[| |] |]; eexists; reflexivity. }
    destruct Hc as [color Hc]. exists (VFloat p), color.
    split; [reflexivity | exact Hc].
Qed.

Section OpportunitiesTable.

Variable py_repr : value -> string.

Lemma opportunities_rows_ok opps :
  forall table table',
    opportunities_rows py_repr opps table = ok table' ->
    show_header table' = show_header table
    /\ columns table' = columns table
    /\ exists new,
         rows table' = (rows table ++ new)%list
         /\ Forall2 (rendered_row py_repr) (filter below_one opps) new.
Proof.
  induction opps as [| o rest IH]; intros table table' H.
  - inversion H. repeat split. exists []. split; [symmetry; apply app_nil_r |].
    constructor.
  - cbn [opportunities_rows] in H.
    apply bind_ok_inv in H. destruct H as [below [Hlt H]].
    apply py_lt_one_inv in Hlt. destruct Hlt as [_ ->].
    cbn [filter]. destruct (below_one o).
    + apply bind_ok_inv in H. destruct H as [s100 [Hmul H]].
      apply bind_ok_inv in H. destruct H as [color [Hcolor H]].
      apply bind_ok_inv in H. destruct H as [t1 [Hrow H]].
      inversion Hrow; subst t1; clear Hrow.
      apply IH in H. simpl in H. destruct H as [Hh [Hc [new [Hrows Hnew]]]].
      split; [exact Hh |]. split; [exact Hc |].
      exists ([opportunity_cell py_repr color o] :: new).
      split; [rewrite Hrows, <- app_assoc; reflexivity |].
      constructor; [| exact Hnew]. exists s100, color. auto.
    + apply IH in H. exact H.
Qed.

Lemma opportunities_rows_total opps :
  Forall numeric_score opps ->
  forall table, exists table', opportunities_rows py_repr opps table = ok table'.
Proof.
  induction 1 as [| o rest Hnum _ IH]; intros table.
  - exists table. reflexivity.
  - cbn [opportunities_rows]. rewrite (py_lt_one_numeric o Hnum). simpl.
    destruct (below_one o); [| apply IH].
    destruct (score_color_numeric _ Hnum) as [s100 [color [Hmul Hcolor]]].
    rewrite Hmul. simpl. rewrite Hcolor. simpl. apply IH.
Qed.

(** C5.  When the scores are numbers the table is built.  A table that is
    built has one row per opportunity whose score is strictly below 1, in
    their order, and no row for any other; a row is a single cell, which
    reads title, then " • Potential savings: " with the display value
    exactly when that is a non-empty string, then the description on the
    next line. *)
Theorem C5_rows_are_the_opportunities_below_one :
  forall opps,
    (Forall numeric_score opps ->
     exists table, display_opportunities py_repr opps = ok table)
    /\ (forall table,
           display_opportunities py_repr opps = ok table ->
           show_header table = false
           /\ columns table = ["Content"]
           /\ Forall2 (rendered_row py_repr) (filter below_one opps) (rows table))
    /\ (forall color o,
           opp_displayValue o = VStr "" ->
           opportunity_cell py_repr color o
           = markup color ("● " ++ str py_repr (opp_title o))
               ++ newline ++ "  " ++ str py_repr (opp_description o))
    /\ (forall color o shown,
           shown <> "" ->
           opp_displayValue o = VStr shown ->
           opportunity_cell py_repr color o
           = markup color ("● " ++ str py_repr (opp_title o))
               ++ " • Potential savings: " ++ shown
               ++ newline ++ "  " ++ str py_repr (opp_description o)).
Proof.
  intros opps. split; [| split; [| split]].
  - intros Hnum. apply opportunities_rows_total. exact Hnum.
  - intros table H. apply opportunities_rows_ok in H.
    destruct H as [Hh [Hc [new [Hrows Hnew]]]]. simpl in Hh, Hc, Hrows.
    rewrite Hrows. auto.
  - intros color o Hdv. unfold opportunity_cell, savings_text.
    rewrite Hdv. reflexivity.
  - intros color o shown Hne Hdv. unfold opportunity_cell, savings_text.
    rewrite Hdv. simpl truthy.
    destruct (String.eqb_spec shown ""); [contradiction |]. simpl negb. cbv iota.
    simpl str. rewrite string_app_assoc. reflexivity.
Qed.

End OpportunitiesTable.

(** The two opportunities of the sample answer: the one with score 1 has
    no row, the one with score 0.4 has a red row with its savings. *)
Lemma C5_rows_are_the_opportunities_below_one_witness :
  let perfect :=
    mkOpportunity (VStr "Eliminate render-blocking resources")
      (VStr "Defer scripts") (VInt 1) (VInt 0) (VStr "") in
  let unused_css :=
    mkOpportunity (VStr "Reduce unused CSS") (VStr "Remove dead rules")
      (VFloat Sample.f0_4) (VInt 0) (VStr "Save 150 KB") in
  (exists table,
      display_opportunities Sample.repr [perfect; unused_css] = ok table)
  /\ (show_header (mkTable false ["Content"]
        [["[red]● Reduce unused CSS[/red] • Potential savings: Save 150 KB"
            ++ newline ++ "  Remove dead rules"]]) = false
      /\ columns (mkTable false ["Content"]
           [["[red]● Reduce unused CSS[/red] • Potential savings: Save 150 KB"
               ++ newline ++ "  Remove dead rules"]]) = ["Content"]
      /\ Forall2 (rendered_row Sample.repr) [unused_css]
           [["[red]● Reduce unused CSS[/red] • Potential savings: Save 150 KB"
               ++ newline ++ "  Remove dead rules"]])
  /\ opportunity_cell Sample.repr "red" unused_css
     = "[red]● Reduce unused CSS[/red] • Potential savings: Save 150 KB"
         ++ newline ++ "  Remove dead rules".
Proof.
  intros perfect unused_css.
  destruct (C5_rows_are_the_opportunities_below_one Sample.repr
              [perfect; unused_css]) as [Htotal [Hrows [_ Hsavings]]].
  split; [| split].
  - apply Htotal. repeat constructor.
  - apply (Hrows (mkTable false ["Content"]
        [["[red]● Reduce unused CSS[/red] • Potential savings: Save 150 KB"
            ++ newline ++ "  Remove dead rules"]])).
    reflexivity.
  - apply (Hsavings "red" unused_css "Save 150 KB"); [discriminate | reflexivity].
Defined.

(* ===================================================================== *)
(** * Colors of all values *)
(* ===================================================================== *)

Lemma get_score_color_float f :
  get_score_color (VFloat f)
  = ok (match SFcompare f float_90 with
        | Some (Eq | Gt) => "green"
        | _ => match SFcompare f float_50 with
               | Some (Eq | Gt) => "yellow"
               | _ => "red"
               end
        end).
Proof.
  unfold get_score_color, py_ge, compare_int.
  change (float_of_int 90) with (@ok spec_float float_90).
  change (float_of_int 50) with (@ok spec_float float_50).
  cbn [bind ok].
  destruct (SFcompare f float_90) as [[| |] |]; cbn [bind ok]; try reflexivity;
    destruct (SFcompare f float_50) as [[| |] |]; reflexivity.
Qed.

Lemma get_score_color_numeric v :
  numeric v ->
  exists color,
    get_score_color v = ok color
    /\ (color = "green" \/ color = "yellow" \/ color = "red").
Proof.
  destruct v as [| b | n | f | s | l | d]; simpl; intros H; try contradiction.
  - destruct b; eexists; (split; [reflexivity | auto]).
  - rewrite get_score_color_int. eexists. split; [reflexivity |].
    destruct (90 <=? n); [auto |]. destruct (50 <=? n); auto.
  - rewrite get_score_color_float. eexists. split; [reflexivity |].
    destruct (SFcompare f float_90) as [[| |] |]; auto;
      destruct (SFcompare f float_50) as [[| |] |]; auto.
Qed.

Lemma get_score_color_not_numeric v :
  ~ numeric v -> exists msg, get_score_color v = raise TypeError msg.
Proof.
  destruct v as [| b | n | f | s | l | d]; simpl; intros H;
    try (exfalso; apply H; exact I); eexists; reflexivity.
Qed.

(** A product with 100 that has a color is the product of a number. *)
Lemma mul_color_numeric v s100 color :
  mul v 100 = ok s100 -> get_score_color s100 = ok color -> numeric v.
Proof.
  destruct v as [| b | n | f | s | l | d]; simpl; auto; intros Hm Hc;
    try discriminate Hm; inversion Hm; subst; discriminate Hc.
Qed.

(** X1.  [get_score_color] answers on numbers and on nothing else: a bool,
    an int or a float gets one of the three colors, where a NaN, which
    compares false with everything, is red, and [True], which is 1, is red
    too; any other value raises [TypeError] at the first comparison. *)
Theorem X1_get_score_color_cases :
  (forall v,
      match v with
      | VBool _ | VInt _ | VFloat _ =>
          exists color,
            get_score_color v = ok color
            /\ (color = "green" \/ color = "yellow" \/ color = "red")
      | _ => exists msg, get_score_color v = raise TypeError msg
      end)
  /\ get_score_color (VFloat S754_nan) = ok "red"
  /\ get_score_color (VBool true) = ok "red"
  /\ get_score_color (VFloat (S754_infinity false)) = ok "green".
Proof.
  split; [| repeat split].
  intros v. destruct v as [| b | n | f | s | l | d];
    try (apply get_score_color_numeric; exact I);
    apply get_score_color_not_numeric; simpl; auto.
Qed.

(* ===================================================================== *)
(** * The metrics table *)
(* ===================================================================== *)

Lemma cell_ok_inv v shown : cell v = ok shown -> cell_value v.
Proof. destruct v; simpl; auto; discriminate. Qed.

Lemma cells_three a v b :
  cells [VStr a; v; VStr b] = (shown <- cell v ;; ok [a; shown; b]).
Proof. simpl. destruct (cell v); reflexivity. Qed.

Lemma metrics_rows_ok items :
  forall table table',
    metrics_rows items table = ok table' ->
    show_header table' = show_header table
    /\ columns table' = columns table
    /\ exists new,
         rows table' = (rows table ++ new)%list
         /\ Forall2 metric_row items new.
Proof.
  induction items as [| [name mv] rest IH]; intros table table' H.
  - inversion H. repeat split. exists []. split; [symmetry; apply app_nil_r |].
    constructor.
  - cbn [metrics_rows] in H.
    apply bind_ok_inv in H. destruct H as [s100 [Hmul H]].
    apply bind_ok_inv in H. destruct H as [color [Hcolor H]].
    apply bind_ok_inv in H. destruct H as [shown100 [Hmul' H]].
    rewrite Hmul in Hmul'. inversion Hmul'; subst shown100; clear Hmul'.
    apply bind_ok_inv in H. destruct H as [digits [Hdigits H]].
    apply bind_ok_inv in H. destruct H as [t1 [Hrow H]].
    unfold add_row in Hrow. rewrite cells_three in Hrow.
    apply bind_ok_inv in Hrow. destruct Hrow as [cs [Hcs Hrow]].
    apply bind_ok_inv in Hcs. destruct Hcs as [shown [Hshown Hcs]].
    inversion Hcs; subst cs; clear Hcs. inversion Hrow; subst t1; clear Hrow.
    apply IH in H. cbn [show_header columns rows] in H.
    destruct H as [Hh [Hc [new [Hrows Hnew]]]].
    split; [exact Hh |]. split; [exact Hc |].
    exists ([name; shown; markup color digits] :: new).
    split; [rewrite Hrows, <- app_assoc; reflexivity |].
    constructor; [| exact Hnew].
    exists s100, color, digits, shown. cbn [fst snd]. auto.
Qed.

Lemma metrics_rows_total items :
  Forall (fun named : string * MetricValue =>
            (exists f, mv_score (snd named) = VFloat f)
            /\ cell_value (mv_displayValue (snd named))) items ->
  forall table, exists table', metrics_rows items table = ok table'.
Proof.
  induction 1 as [| [name mv] rest [[f Hf] Hcell] _ IH]; intros table.
  - exists table. reflexivity.
  - cbn [metrics_rows]. cbn [snd] in Hf, Hcell. rewrite Hf.
    change (mul (VFloat f) 100)
      with (@ok value (VFloat (SFmul prec emax f float_100))).
    cbn [bind ok]. rewrite get_score_color_float. cbn [bind ok format_0f].
    unfold add_row. rewrite cells_three.
    destruct (mv_displayValue mv); try contradiction; cbn [cell bind ok];
      apply IH.
Qed.

(** X2.  A metrics table that is built has the three columns Metric,
    Value and Score and one row per metric, in the order of the metrics:
    the name, the display value ([None] as the empty string), and the
    score times 100 without decimals in the color of that product.  It is
    built whenever the scores are floats and the display values strings
    or [None]. *)
Theorem X2_metrics_table_rows :
  forall metrics,
    (forall table,
        display_metrics metrics = ok table ->
        show_header table = true
        /\ columns table = ["Metric"; "Value"; "Score"]
        /\ Forall2 metric_row metrics (rows table)
        /\ List.length (rows table) = List.length metrics)
    /\ (Forall (fun named : string * MetricValue =>
                  (exists f, mv_score (snd named) = VFloat f)
                  /\ cell_value (mv_displayValue (snd named))) metrics ->
        exists table, display_metrics metrics = ok table).
Proof.
  intros metrics. split.
  - intros table H. apply metrics_rows_ok in H.
    destruct H as [Hh [Hc [new [Hrows Hnew]]]]. simpl in Hh, Hc, Hrows.
    rewrite Hrows. repeat split; auto.
    symmetry. eapply Forall2_length. exact Hnew.
  - intros H. apply metrics_rows_total. exact H.
Qed.

(** A metric that cannot be shown makes the loop raise. *)
Lemma metrics_rows_fails items name mv :
  In (name, mv) items ->
  ~ numeric (mv_score mv) \/ ~ cell_value (mv_displayValue mv) ->
  forall table, exists e, metrics_rows items table = inl e.
Proof.
  intros Hin Hbad table.
  destruct (metrics_rows items table) as [e | table'] eqn:E; [eauto |].
  exfalso. apply metrics_rows_ok in E. destruct E as [_ [_ [new [_ Hnew]]]].
  clear table table'. induction Hnew as [| nm row items' new' Hrow _ IH].
  - contradiction.
  - destruct Hin as [-> | Hin]; [| exact (IH Hin)].
    destruct Hrow as [s100 [color [digits [shown [Hm [Hc [_ [Hs _]]]]]]]].
    cbn [snd] in Hm, Hs. destruct Hbad as [Hbad | Hbad]; apply Hbad.
    + eapply mul_color_numeric; eassumption.
    + eapply cell_ok_inv; eassumption.
Qed.

(** X3.  One metric whose score is not a number (a JSON [null], say), or
    whose display value is neither a string nor [None], and
    [display_metrics] raises instead of returning a table. *)
Theorem X3_metrics_table_needs_numbers metrics name mv :
  In (name, mv) metrics ->
  ~ numeric (mv_score mv) \/ ~ cell_value (mv_displayValue mv) ->
  exists e, display_metrics metrics = inl e.
Proof.
  intros Hin Hbad. unfold display_metrics.
  eapply metrics_rows_fails; eassumption.
Qed.

Lemma X3_metrics_table_needs_numbers_witness :
  exists e,
    display_metrics
      [ ("First Contentful Paint",
         mkMetric (VFloat Sample.f0_95) (VFloat Sample.f1_2) (VStr "1.2 s"));
        ("Speed Index", mkMetric VNone (VInt 0) (VStr "1.5 s")) ] = inl e.
Proof.
  apply (X3_metrics_table_needs_numbers _ "Speed Index"
           (mkMetric VNone (VInt 0) (VStr "1.5 s"))).
  - simpl. auto.
  - left. simpl. auto.
Defined.

(** The metrics of the sample answer. *)
Lemma X2_metrics_table_rows_witness :
  let metrics :=
    [ ("First Contentful Paint",
       mkMetric (VFloat Sample.f0_95) (VFloat Sample.f1_2) (VStr "1.2 s"));
      ("Cumulative Layout Shift",
       mkMetric (VFloat Sample.f0_575) (VInt 0) VNone) ] in
  let table :=
    mkTable true ["Metric"; "Value"; "Score"]
      [ ["First Contentful Paint"; "1.2 s"; "[green]95[/green]"];
        ["Cumulative Layout Shift"; ""; "[yellow]57[/yellow]"] ] in
  (show_header table = true
   /\ columns table = ["Metric"; "Value"; "Score"]
   /\ Forall2 metric_row metrics (rows table)
   /\ List.length (rows table) = List.length metrics)
  /\ exists built, display_metrics metrics = ok built.
Proof.
  intros metrics table.
  destruct (X2_metrics_table_rows metrics) as [Hshape Htotal]. split.
  - apply Hshape. vm_compute. reflexivity.
  - apply Htotal. repeat constructor; simpl; eauto.
Defined.

(* ===================================================================== *)
(** * When the opportunities table is built *)
(* ===================================================================== *)

Lemma py_lt_one_error v e : py_lt v 1 = inl e -> exc_type e = TypeError.
Proof.
  unfold py_lt, compare_int.
  destruct v; simpl; intros H; try discriminate H; inversion H; reflexivity.
Qed.

Section OpportunitiesTableBuilt.

Variable py_repr : value -> string.

Lemma opportunities_rows_numeric opps :
  forall table table',
    opportunities_rows py_repr opps table = ok table' ->
    Forall numeric_score opps.
Proof.
  induction opps as [| o rest IH]; intros table table' H; [constructor |].
  cbn [opportunities_rows] in H.
  apply bind_ok_inv in H. destruct H as [below [Hlt H]].
  apply py_lt_one_inv in Hlt. destruct Hlt as [Hnum ->].
  constructor; [exact Hnum |].
  destruct (below_one o).
  - apply bind_ok_inv in H. destruct H as [s100 [_ H]].
    apply bind_ok_inv in H. destruct H as [color [_ H]].
    apply bind_ok_inv in H. destruct H as [t1 [_ H]].
    eapply IH. exact H.
  - eapply IH. exact H.
Qed.

Lemma opportunities_rows_error opps :
  forall table e,
    opportunities_rows py_repr opps table = inl e ->
    exc_type e = TypeError /\ exists o, In o opps /\ ~ numeric_score o.
Proof.
  induction opps as [| o rest IH]; intros table e H; [discriminate H |].
  cbn [opportunities_rows] in H.
  destruct (py_lt (opp_score o) 1) as [e0 | below] eqn:Hlt; cbn [bind] in H.
  - inversion H; subst e0. split; [eapply py_lt_one_error; exact Hlt |].
    exists o. split; [left; reflexivity |]. intros Hnum.
    rewrite (py_lt_one_numeric o Hnum) in Hlt. discriminate Hlt.
  - apply py_lt_one_inv in Hlt. destruct Hlt as [Hnum ->].
    assert (Hrest : forall t, opportunities_rows py_repr rest t = inl e ->
                              exc_type e = TypeError
                              /\ exists o', In o' (o :: rest) /\ ~ numeric_score o').
    { intros t Ht. destruct (IH t e Ht) as [Hty [o' [Hin Hn]]].
      split; [exact Hty |]. exists o'. split; [right; exact Hin | exact Hn]. }
    destruct (below_one o); [| eapply Hrest; exact H].
    destruct (score_color_numeric _ Hnum) as [s100 [color [Hmul Hcolor]]].
    rewrite Hmul in H. cbn [bind ok] in H. rewrite Hcolor in H.
    cbn [bind ok add_row cells cell] in H.
    eapply Hrest. exact H.
Qed.

(** X4.  The opportunities table is built exactly when every score is a
    number.  Otherwise [display_opportunities] raises [TypeError], from the
    comparison of line 106 on an opportunity whose score is not a number;
    nothing else in it can fail. *)
Theorem X4_opportunities_table_built_iff_numeric :
  forall opps,
    (Forall numeric_score opps
     <-> exists table, display_opportunities py_repr opps = ok table)
    /\ (forall e,
           display_opportunities py_repr opps = inl e ->
           exc_type e = TypeError
           /\ exists o, In o opps /\ ~ numeric_score o).
Proof.
  intros opps. unfold display_opportunities. split; [split |].
  - intros H. exact (opportunities_rows_total py_repr opps H _).
  - intros [table H]. exact (opportunities_rows_numeric opps _ _ H).
  - intros e H. exact (opportunities_rows_error opps _ _ H).
Qed.

End OpportunitiesTableBuilt.

(** An opportunity with a [null] score after one with a score. *)
Lemma X4_opportunities_table_built_iff_numeric_witness :
  let scored :=
    mkOpportunity (VStr "Reduce unused CSS") (VStr "Remove dead rules")
      (VFloat Sample.f0_4) (VInt 0) (VStr "Save 150 KB") in
  let unscored :=
    mkOpportunity (VStr "Defer offscreen images") (VStr "Lazy-load")
      VNone (VInt 0) (VStr "") in
  (exists table, display_opportunities Sample.repr [scored] = ok table)
  /\ (exc_type (Exc TypeError
                  "'<' not supported between instances of 'NoneType' and 'int'")
      = TypeError
      /\ exists o, In o [scored; unscored] /\ ~ numeric_score o).
Proof.
  intros scored unscored. split.
  - apply (proj1 (X4_opportunities_table_built_iff_numeric Sample.repr [scored])).
    repeat constructor.
  - apply (proj2 (X4_opportunities_table_built_iff_numeric Sample.repr
                    [scored; unscored])).
    reflexivity.
Defined.

(* ===================================================================== *)
(** * What the report prints *)
(* ===================================================================== *)

Lemma frame_ret {A : Type} (a : A) : frame (ret a).
Proof. intros self. simpl. repeat split. exists []. symmetry. apply app_nil_r. Qed.

Lemma frame_lift {A : Type} (c : res A) : frame (lift c).
Proof. intros self. simpl. repeat split. exists []. symmetry. apply app_nil_r. Qed.

Lemma frame_print x : frame (console_print x).
Proof. intros self. simpl. repeat split. exists [x]. reflexivity. Qed.

Lemma frame_enter c : frame (enter c).
Proof. intros self. simpl. repeat split. exists []. symmetry. apply app_nil_r. Qed.

Lemma frame_bindM {A B : Type} (c : M A) (k : A -> M B) :
  frame c -> (forall a, frame (k a)) -> frame (bindM c k).
Proof.
  intros Hc Hk self. unfold bindM.
  destruct (Hc self) as [Hkey [Hdone [out Hout]]].
  destruct (c self) as [[e | a] self1]; cbn [snd] in *.
  - repeat split; eauto.
  - destruct (Hk a self1) as [Hkey' [Hdone' [out' Hout']]].
    split; [congruence |]. split; [congruence |].
    exists (out ++ out')%list. rewrite Hout', Hout, app_assoc. reflexivity.
Qed.

Create HintDb frame.
#[local] Hint Resolve frame_ret frame_lift frame_print frame_enter
  frame_bindM : frame.

Lemma frame_analyze_url g url strategy : frame (analyze_url g url strategy).
Proof.
  intros self. rewrite analyze_url_unfold.
  destruct (try_block g (api_key self) url strategy) as [e | r].
  - destruct (is_Exception (exc_type e)); simpl; repeat split;
      eexists; try reflexivity; symmetry; apply app_nil_r.
  - simpl. repeat split. exists []. symmetry. apply app_nil_r.
Qed.

(** A present result carries the URL and the strategy of the call, and
    the call prints nothing. *)
Lemma analyze_url_present g url strategy self r self' :
  analyze_url g url strategy self = (ok (Some r), self') ->
  r_url r = url /\ r_strategy r = strategy
  /\ self' = entered (CallAnalyzeUrl url strategy) self.
Proof.
  rewrite analyze_url_unfold. unfold try_block.
  destruct (fetch g (api_key self) url strategy) as [e | data]; cbn [bind].
  - destruct (is_Exception (exc_type e)); intros H; discriminate H.
  - destruct (build_result url strategy data) as [e | r'] eqn:Hb.
    + destruct (is_Exception (exc_type e)); intros H; discriminate H.
    + intros H. inversion H; subst.
      apply build_result_ok_inv in Hb.
      destruct Hb as [au [s [s100 [_ [_ [_ [_ [_ [_ [Hu Hs]]]]]]]]]]. auto.
Qed.

Section ReportOutput.

Variable py_repr : value -> string.

Lemma frame_report_section result : frame (report_section py_repr result).
Proof. unfold report_section. auto 20 with frame. Qed.

Lemma frame_display_report url d m : frame (display_report py_repr url d m).
Proof.
  unfold display_report.
  apply frame_bindM; [apply frame_enter | intros _].
  apply frame_bindM; [apply frame_print | intros _].
  apply frame_bindM; [| intros _]; apply frame_report_section.
Qed.

(** [report_section] by the two tables it builds. *)
Lemma report_section_run result self :
  report_section py_repr result self =
  match display_metrics (r_metrics result) with
  | inl e => (inl e, printed_all (section_head result) self)
  | inr metrics_table =>
      let upto :=
        (section_head result
           ++ [ TableR metrics_table;
                heading (title (r_strategy result) ++ " Opportunities") ])%list in
      match display_opportunities py_repr (r_opportunities result) with
      | inl e => (inl e, printed_all upto self)
      | inr opportunities_table =>
          (ok tt, printed_all (upto ++ [TableR opportunities_table]) self)
      end
  end.
Proof.
  unfold report_section, bindM, lift, console_print, printed, printed_all,
    section_head, tier_color.
  rewrite get_score_color_int. cbn [ok api_key console completed calls].
  destruct (display_metrics (r_metrics result)) as [e | tm];
    cbn [api_key console completed calls].
  - rewrite <- !app_assoc. reflexivity.
  - destruct (display_opportunities py_repr (r_opportunities result))
      as [e | to]; cbn [api_key console completed calls];
      rewrite <- !app_assoc; reflexivity.
Qed.

Lemma report_section_ok result self self' :
  report_section py_repr result self = (ok tt, self') ->
  exists out, section_of py_repr result out /\ self' = printed_all out self.
Proof.
  rewrite report_section_run.
  destruct (display_metrics (r_metrics result)) as [e | tm] eqn:Hm;
    [intros H; discriminate H |].
  cbv zeta.
  destruct (display_opportunities py_repr (r_opportunities result))
    as [e | to] eqn:Ho; intros H; [discriminate H |].
  apply pair_equal_spec in H. destruct H as [_ <-].
  eexists. split; [| reflexivity].
  exists tm, to. split; [exact Hm |]. split; [exact Ho |].
  rewrite <- app_assoc. reflexivity.
Qed.

Lemma report_section_total result out self :
  section_of py_repr result out ->
  report_section py_repr result self = (ok tt, printed_all out self).
Proof.
  intros [tm [to [Hm [Ho ->]]]]. rewrite report_section_run, Hm.
  cbv beta iota zeta delta [ok].
  rewrite Ho. cbv beta iota zeta delta [ok].
  rewrite <- app_assoc. reflexivity.
Qed.


(** A report stops at the first table that is not built: at the metrics
    of the desktop result it has printed the first four objects. *)
Lemma display_report_stops_at_metrics url d m self e :
  display_metrics (r_metrics d) = inl e ->
  display_report py_repr url d m self =
  (inl e,
   printed_all
     (heading ("Performance Report for " ++ url) :: section_head d)
     (entered (CallDisplayReport url d m) self)).
Proof.
  intros Hm. unfold display_report, bindM at 1 2 3, enter, console_print.
  rewrite report_section_run, Hm.
  unfold printed_all, printed, entered. simpl.
  rewrite <- !app_assoc. reflexivity.
Qed.

End ReportOutput.


(* ===================================================================== *)
(** * The loop over the URLs *)
(* ===================================================================== *)

Lemma analyze_calls_app l1 l2 :
  analyze_calls (l1 ++ l2) = (analyze_calls l1 ++ analyze_calls l2)%list.
Proof.
  induction l1 as [| c l1 IH]; simpl; [reflexivity |].
  destruct c; simpl; rewrite IH; reflexivity.
Qed.

Section Loop.

Variable py_repr : value -> string.


Lemma analyze_one_ok g url self self' :
  analyze_one py_repr g url self = (ok tt, self') ->
  api_key self' = api_key self
  /\ completed self' = completed self + 2
  /\ analyze_calls (calls self')
     = (analyze_calls (calls self) ++ [(url, "desktop"); (url, "mobile")])%list
  /\ (exists out, console self' = (console self ++ out)%list)
  /\ exists reports,
       report_calls (calls self') = (report_calls (calls self) ++ reports)%list
       /\ Forall (fun r => fst (fst r) = url) reports
       /\ (List.length reports <= 1)%nat.
Proof.
  unfold analyze_one, bindM, progress_update.
  destruct (analyze_url g url "desktop" self) as [[e | d] s1] eqn:Hd;
    [intros H; discriminate H |].
  cbv beta iota zeta delta [ok].
  destruct (analyze_url g url "mobile" (advanced 1 s1)) as [[e | m] s2] eqn:Hm;
    [intros H; discriminate H |].
  cbv beta iota zeta.
  destruct (frame_analyze_url g url "desktop" self) as [K1 [D1 [o1 O1]]].
  destruct (frame_analyze_url g url "mobile" (advanced 1 s1)) as [K2 [D2 [o2 O2]]].
  rewrite Hd in K1, D1, O1. rewrite Hm in K2, D2, O2. cbn [snd] in *.
  destruct (analyze_url_console _ _ _ _ _ _ Hd) as [C1 _].
  destruct (analyze_url_console _ _ _ _ _ _ Hm) as [C2 _].
  cbn [advanced api_key console completed calls] in *.
  set (s3 := advanced 1 s2).
  assert (K3 : api_key s3 = api_key self) by (unfold s3; simpl; congruence).
  assert (D3 : completed s3 = completed self + 2) by (unfold s3; simpl; lia).
  assert (O3 : console s3 = (console self ++ o1 ++ o2)%list)
    by (unfold s3; simpl; rewrite O2, O1, <- ?app_assoc; reflexivity).
  assert (C3 : calls s3 = (calls self ++ [CallAnalyzeUrl url "desktop";
                                          CallAnalyzeUrl url "mobile"])%list)
    by (unfold s3; simpl; rewrite C2, C1, <- app_assoc; reflexivity).
  assert (A3 : analyze_calls (calls s3)
               = (analyze_calls (calls self)
                    ++ [(url, "desktop"); (url, "mobile")])%list)
    by (rewrite C3, analyze_calls_app; reflexivity).
  assert (R3 : report_calls (calls s3) = report_calls (calls self))
    by (rewrite C3, report_calls_app; simpl; apply app_nil_r).
  clearbody s3.
  assert (Hskip : (ok tt, s3) = (ok tt, self') ->
                  api_key self' = api_key self
                  /\ completed self' = completed self + 2
                  /\ analyze_calls (calls self')
                     = (analyze_calls (calls self)
                          ++ [(url, "desktop"); (url, "mobile")])%list
                  /\ (exists out, console self' = (console self ++ out)%list)
                  /\ exists reports,
                       report_calls (calls self')
                       = (report_calls (calls self) ++ reports)%list
                       /\ Forall (fun r => fst (fst r) = url) reports
                       /\ (List.length reports <= 1)%nat).
  { intros H. apply pair_equal_spec in H. destruct H as [_ <-].
    repeat (split; [assumption |]). split; [eauto |].
    exists []. rewrite app_nil_r. repeat split; auto. }
  destruct d as [rd |], m as [rm |]; try exact Hskip.
  intros H.
  destruct (frame_display_report py_repr url rd rm s3) as [K4 [D4 [o4 O4]]].
  pose proof (display_report_calls py_repr url rd rm s3) as C4.
  rewrite H in K4, D4, O4, C4. cbn [snd] in *.
  split; [congruence |]. split; [congruence |]. split; [| split].
  - rewrite C4, analyze_calls_app. simpl. rewrite app_nil_r. exact A3.
  - exists (o1 ++ o2 ++ o4)%list. rewrite O4, O3, <- ?app_assoc. reflexivity.
  - exists [(url, rd, rm)]. rewrite C4, report_calls_app, R3.
    repeat split; auto.
Qed.

Lemma analyze_loop_ok g urls :
  forall self self',
    analyze_loop py_repr g urls self = (ok tt, self') ->
    api_key self' = api_key self
    /\ completed self' = completed self + 2 * Z.of_nat (List.length urls)
    /\ analyze_calls (calls self')
       = (analyze_calls (calls self)
            ++ flat_map (fun u => [(u, "desktop"); (u, "mobile")]) urls)%list
    /\ (exists out, console self' = (console self ++ out)%list)
    /\ exists reports,
         report_calls (calls self') = (report_calls (calls self) ++ reports)%list
         /\ Forall (fun r => In (fst (fst r)) urls) reports
         /\ (List.length reports <= List.length urls)%nat.
Proof.
  induction urls as [| url rest IH]; intros self self' H.
  - apply pair_equal_spec in H. destruct H as [_ <-].
    split; [reflexivity |]. split; [simpl; lia |].
    split; [simpl; rewrite app_nil_r; reflexivity |].
    split; [exists []; rewrite app_nil_r; reflexivity |].
    exists []. rewrite app_nil_r. repeat split; auto.
  - cbn [analyze_loop] in H. unfold bindM at 1 in H.
    destruct (analyze_one py_repr g url self) as [[e | []] s1] eqn:H1;
      [discriminate H |].
    apply analyze_one_ok in H1.
    destruct H1 as [K1 [D1 [A1 [[o1 O1] [r1 [R1 [F1 L1]]]]]]].
    apply IH in H.
    destruct H as [K2 [D2 [A2 [[o2 O2] [r2 [R2 [F2 L2]]]]]]].
    split; [congruence |].
    split; [rewrite D2, D1; cbn [List.length]; lia |].
    split; [rewrite A2, A1, <- app_assoc; reflexivity |].
    split; [exists (o1 ++ o2)%list; rewrite O2, O1, <- ?app_assoc; reflexivity |].
    exists (r1 ++ r2)%list.
    split; [rewrite R2, R1, <- ?app_assoc; reflexivity |]. split.
    + apply Forall_app. split.
      * eapply Forall_impl; [| exact F1]. intros r Hr. left. symmetry. exact Hr.
      * eapply Forall_impl; [| exact F2]. intros r Hr. right. exact Hr.
    + rewrite length_app. cbn [List.length]. lia.
Qed.

(** X7.  When [analyze_urls] ends normally, every URL was analyzed exactly
    twice, desktop before mobile, in the order of the list; the progress
    task reached its total of two per URL; the credential is unchanged;
    what was on the console is still there, in front; and at most one
    report per URL was entered, each for a URL of the list. *)
Theorem X7_analyze_urls_accounts_for_every_url g urls self self' :
  analyze_urls py_repr g urls self = (ok tt, self') ->
  api_key self' = api_key self
  /\ completed self' = 2 * Z.of_nat (List.length urls)
  /\ analyze_calls (calls self')
     = (analyze_calls (calls self)
          ++ flat_map (fun u => [(u, "desktop"); (u, "mobile")]) urls)%list
  /\ (exists out, console self' = (console self ++ out)%list)
  /\ exists reports,
       report_calls (calls self') = (report_calls (calls self) ++ reports)%list
       /\ Forall (fun r => In (fst (fst r)) urls) reports
       /\ (List.length reports <= List.length urls)%nat.
Proof.
  unfold analyze_urls, bindM, progress_add_task. intros H.
  apply analyze_loop_ok in H. cbn [api_key console completed calls] in H.
  exact H.
Qed.

End Loop.


(** Two URLs of which the first has a desktop result only. *)
Lemma X7_analyze_urls_accounts_for_every_url_witness :
  let g := with_requests Sample.client_desktop_only in
  let urls := ["https://example.com"; "https://example.org"] in
  let after := snd (analyze_urls Sample.repr g urls Sample.reporter) in
  api_key after = api_key Sample.reporter
  /\ completed after = 2 * Z.of_nat (List.length urls)
  /\ analyze_calls (calls after)
     = (analyze_calls (calls Sample.reporter)
          ++ flat_map (fun u => [(u, "desktop"); (u, "mobile")]) urls)%list
  /\ (exists out, console after = (console Sample.reporter ++ out)%list)
  /\ exists reports,
       report_calls (calls after)
       = (report_calls (calls Sample.reporter) ++ reports)%list
       /\ Forall (fun r => In (fst (fst r)) urls) reports
       /\ (List.length reports <= List.length urls)%nat.
Proof.
  intros g urls after.
  apply (X7_analyze_urls_accounts_for_every_url Sample.repr g urls
           Sample.reporter after).
  vm_compute. reflexivity.
Defined.

(* ===================================================================== *)
(** * What the answer must hold *)
(* ===================================================================== *)

(** A decoded answer from which no result can be built gives [None] and
    the line of the exception. *)
Lemma analyze_url_build_failure g url strategy self data e :
  fetch g (api_key self) url strategy = ok data ->
  build_result url strategy data = inl e ->
  analyze_url g url strategy self =
  (ok None,
   printed (Text (error_line url strategy e))
           (entered (CallAnalyzeUrl url strategy) self)).
Proof.
  intros Hf Hb. rewrite analyze_url_unfold. unfold try_block.
  rewrite Hf. cbn [bind ok].
  rewrite Hb, (catchable_build_result _ _ _ _ Hb). reflexivity.
Qed.

(** [opportunity_of] on a dict, by the five keys it reads. *)
Lemma opportunity_of_dict fields :
  opportunity_of (VDict fields) =
  match dict_lookup "title" fields with
  | None => raise KeyError "'title'"
  | Some t =>
      match dict_lookup "description" fields with
      | None => raise KeyError "'description'"
      | Some d =>
          match dict_lookup "score" fields with
          | None => raise KeyError "'score'"
          | Some s =>
              ok (mkOpportunity t d s
                    (match dict_lookup "numericValue" fields with
                     | Some n => n
                     | None => VInt 0
                     end)
                    (match dict_lookup "displayValue" fields with
                     | Some dv => dv
                     | None => VStr ""
                     end))
          end
      end
  end.
Proof.
  unfold opportunity_of. cbn [getitem dict_get].
  destruct (dict_lookup "title" fields); [| reflexivity]. cbn [bind ok].
  destruct (dict_lookup "description" fields); [| reflexivity]. cbn [bind ok].
  destruct (dict_lookup "score" fields); reflexivity.
Qed.

Lemma opportunities_loop_fails d keys key audit e :
  In key keys ->
  dict_lookup key d = Some audit ->
  opportunity_of audit = inl e ->
  forall acc, exists e', opportunities_loop (VDict d) keys acc = inl e'.
Proof.
  intros Hin Hl Ho. induction keys as [| k rest IH]; [contradiction |].
  intros acc. cbn [opportunities_loop contains bind ok].
  destruct (String.eqb_spec k key) as [-> | Hne].
  - rewrite Hl. rewrite (getitem_dict _ _ _ Hl). cbn [bind ok].
    rewrite Ho. cbn [bind]. eauto.
  - destruct Hin as [Heq | Hin]; [contradiction |].
    destruct (dict_lookup k d) as [a |] eqn:Hk; [| apply IH; exact Hin].
    rewrite (getitem_dict _ _ _ Hk). cbn [bind ok].
    destruct (opportunity_of a) as [e1 | o]; cbn [bind]; [eauto |].
    apply IH. exact Hin.
Qed.



Lemma metrics_literal_missing audits entries name id e :
  In (name, id) entries ->
  getitem audits id = inl e ->
  exists e', metrics_literal audits entries = inl e'.
Proof.
  intros Hin Hg. induction entries as [| [n i] rest IH]; [contradiction |].
  cbn [metrics_literal].
  destruct (getitem audits i) as [e1 | a1] eqn:E1; cbn [bind]; [eauto |].
  destruct (_get_metric a1) as [e2 | m1]; cbn [bind]; [eauto |].
  destruct Hin as [Heq | Hin].
  - inversion Heq; subst. rewrite Hg in E1. discriminate E1.
  - destruct (IH Hin) as [e' He']. rewrite He'. cbn [bind]. eauto.
Qed.



(* ===================================================================== *)
(** * The request *)
(* ===================================================================== *)

Lemma requests_get_with_requests c :
  requests_get (with_requests c) = ok (Requests.get c).
Proof. reflexivity. Qed.

(** X10.  An analysis consults the HTTP client once, at the API's URL with
    the parameters [url], [key] (the stored credential) and [strategy]:
    two clients that answer this one request alike lead to the same
    result, the same console and the same state, whatever they answer to
    any other request. *)
Theorem X10_one_request_decides c1 c2 url strategy self :
  Requests.get c1 api_url
    [("url", VStr url); ("key", api_key self); ("strategy", VStr strategy)]
  = Requests.get c2 api_url
      [("url", VStr url); ("key", api_key self); ("strategy", VStr strategy)] ->
  analyze_url (with_requests c1) url strategy self
  = analyze_url (with_requests c2) url strategy self.
Proof.
  intros H. rewrite !analyze_url_unfold. unfold try_block, fetch.
  rewrite !requests_get_with_requests. cbn [bind ok].
  unfold request_params. rewrite H. reflexivity.
Qed.

Lemma X10_one_request_decides_witness :
  analyze_url (with_requests Sample.client_ok)
    "https://example.com" "desktop" Sample.reporter
  = analyze_url (with_requests Edge.client_api_only)
      "https://example.com" "desktop" Sample.reporter.
Proof.
  apply X10_one_request_decides. vm_compute. reflexivity.
Defined.

(* ===================================================================== *)
(** * What leaves analyze_url *)
(* ===================================================================== *)



(* ===================================================================== *)
(** * Two colors for one number *)
(* ===================================================================== *)

Lemma round_magnitude_nonneg m e : 0 <= round_magnitude m e.
Proof.
  unfold round_magnitude. destruct e as [| p | p].
  - lia.
  - assert (0 < 2 ^ Z.pos p) by (apply Z.pow_pos_nonneg; lia). nia.
  - assert (Hd : 0 < 2 ^ Z.pos p) by (apply Z.pow_pos_nonneg; lia).
    apply (round_half_even_div_bound (Z.pos m) (2 ^ Z.pos p) (Z.pos m) Hd).
    nia.
Qed.

(** X12.  The score panel colors the rounded score, the metrics table the
    unrounded product.  So a product below 90 that rounds to 90 or more
    is shown by [format(_, '.0f')] as the same number as the rounded
    score, which is green, and yet is not green in the metrics table. *)
Theorem X12_one_number_two_colors product shown :
  round (VFloat product) = ok shown ->
  90 <= shown ->
  SFcompare product float_90 = Some Lt ->
  format_0f (VFloat product) = ok (str_of_Z shown)
  /\ get_score_color (VInt shown) = ok "green"
  /\ exists color,
       get_score_color (VFloat product) = ok color /\ color <> "green".
Proof.
  intros Hr Hs Hlt. split; [| split].
  - destruct product as [s | s | | s m e]; cbn [round float_round] in Hr;
      try discriminate Hr; inversion Hr as [Hn]; subst shown.
    + lia.
    + pose proof (round_magnitude_nonneg m e). destruct s; [lia |].
      reflexivity.
  - rewrite get_score_color_int.
    replace (90 <=? shown) with true by (symmetry; apply Z.leb_le; exact Hs).
    reflexivity.
  - rewrite get_score_color_float, Hlt.
    destruct (SFcompare product float_50) as [[| |] |]; eexists;
      (split; [reflexivity | discriminate]).
Qed.

(** The score 0.897: its product with 100 is the binary64 value of 89.7,
    which a metrics row shows as a yellow 90 and the panel as a green
    90. *)
Lemma X12_one_number_two_colors_witness :
  mul (VFloat Edge.f0_897) 100 = ok (VFloat Edge.f89_7)
  /\ display_metrics
       [("Speed Index", mkMetric (VFloat Edge.f0_897) (VInt 0) (VStr "1.5 s"))]
     = ok (mkTable true ["Metric"; "Value"; "Score"]
             [["Speed Index"; "1.5 s"; "[yellow]90[/yellow]"]])
  /\ (format_0f (VFloat Edge.f89_7) = ok (str_of_Z 90)
      /\ get_score_color (VInt 90) = ok "green"
      /\ exists color,
           get_score_color (VFloat Edge.f89_7) = ok color /\ color <> "green").
Proof.
  split; [vm_compute; reflexivity |]. split; [vm_compute; reflexivity |].
  apply (X12_one_number_two_colors Edge.f89_7 90).
  - vm_compute. reflexivity.
  - lia.
  - vm_compute. reflexivity.
Defined.

(* ===================================================================== *)
(** * The script as written, run *)
(* ===================================================================== *)

(** X13.  Run as written, whatever the environment holds, the script ends
    normally: it has printed the two error lines of the unbound name
    [requests] for https://example.com, desktop then mobile, and no
    report, and the progress task is complete. *)
Theorem X13_main_as_written py_repr environ :
  main py_repr script_globals environ =
  (ok tt,
   mkReporter (VStr "API_KEY_HERE")
     [ Text ("[red]Error analyzing https://example.com (desktop): "
               ++ "name 'requests' is not defined[/red]");
       Text ("[red]Error analyzing https://example.com (mobile): "
               ++ "name 'requests' is not defined[/red]") ]
     2
     [ CallAnalyzeUrl "https://example.com" "desktop";
       CallAnalyzeUrl "https://example.com" "mobile" ]).
Proof. reflexivity. Qed.
